(** * House points ledger and quiz scorer: a shallow embedding

    The repository holds two FastAPI applications over the same Supabase
    schema: [src/main.py] (module [Main] below) and [src/backend/main.py]
    (module [Backend]).  Both are embedded here as functions over an
    explicit store; Python exceptions are values of an error monad and the
    store is threaded through every database call. *)

From Stdlib Require Import ZArith Lia String Ascii.
From stdpp Require Import base option list strings gmap sorting.

Local Open Scope string_scope.
Local Open Scope Z_scope.

(** ** Python runtime *)

(** The exceptions the two programs can meet.  [HTTPException] carries its
    status code; the [detail] text is not modelled. *)
Inductive exn : Type :=
  | HTTPException (status_code : Z)
  | APIError
  | KeyError
  | IndexError
  | ValueError
  | AttributeError.

Inductive res (A : Type) : Type :=
  | Ok (a : A)
  | Raise (e : exn).
Arguments Ok {A} a.
Arguments Raise {A} e.

#[global] Instance res_ret : MRet res := @Ok.
#[global] Instance res_bind : MBind res := λ A B f m,
  match m with
  | Ok a => f a
  | Raise e => Raise e
  end.

(** A [dict] keeps its keys in insertion order, and [max] over [items()]
    depends on that order: an association list with unique keys. *)
Definition pydict : Type := list (string * Z).

Fixpoint dict_get (k : string) (d : pydict) : option Z :=
  match d with
  | [] => None
  | (k', v) :: d' => if decide (k = k') then Some v else dict_get k d'
  end.

(** [d[k] = v]: an existing key keeps its position, a new key goes last. *)
Fixpoint dict_set (k : string) (v : Z) (d : pydict) : pydict :=
  match d with
  | [] => [(k, v)]
  | (k', v') :: d' =>
      if decide (k = k') then (k', v) :: d' else (k', v') :: dict_set k v d'
  end.

(** [d[k] += n]: reading a missing key raises [KeyError]. *)
Definition dict_iadd (k : string) (n : Z) (d : pydict) : res pydict :=
  match dict_get k d with
  | Some v => Ok (dict_set k (v + n) d)
  | None => Raise KeyError
  end.

(** [{k: 0 for k in keys}] *)
Definition dict_zeros (keys : list string) : pydict :=
  fold_left (λ d k, dict_set k 0 d) keys [].

(** [l[i]] with Python's negative indices and [IndexError]. *)
Definition list_getitem {A} (l : list A) (i : Z) : res A :=
  let j := if i <? 0 then i + Z.of_nat (length l) else i in
  if j <? 0 then Raise IndexError
  else match l !! Z.to_nat j with
       | Some x => Ok x
       | None => Raise IndexError
       end.

(** [max(iterable, key=...)]: the running maximum is replaced only by a
    strictly greater key, so the first maximal item wins; the empty
    iterable raises [ValueError]. *)
Fixpoint max_from {A} (key : A → Z) (best : A) (l : list A) : A :=
  match l with
  | [] => best
  | x :: l' => max_from key (if key best <? key x then x else best) l'
  end.

Definition py_max {A} (key : A → Z) (l : list A) : res A :=
  match l with
  | [] => Raise ValueError
  | x :: l' => Ok (max_from key x l')
  end.

(** A [for] loop whose body may raise. *)
Fixpoint for_each {A S} (body : S → A → res S) (l : list A) (s : S) : res S :=
  match l with
  | [] => Ok s
  | a :: l' => s' ← body s a; for_each body l' s'
  end.

(** [k in s] on strings: [k] occurs in [s] as a contiguous substring. *)
Fixpoint str_in (k s : string) : bool :=
  String.prefix k s ||
  match s with
  | EmptyString => false
  | String _ s' => str_in k s'
  end.

(** [any(k in al for k in keys)] *)
Definition any_in (al : string) (keys : list string) : bool :=
  existsb (λ k, str_in k al) keys.

(** [str.lower] restricted to ASCII text: only 'A'..'Z' change.  The scorer
    below takes the lowercasing function as a parameter; this one runs the
    examples. *)
Definition ascii_lower_char (c : ascii) : ascii :=
  let n := nat_of_ascii c in
  if ((65 <=? n)%nat && (n <=? 90)%nat)%bool then ascii_of_nat (n + 32) else c.

Fixpoint ascii_lower (s : string) : string :=
  match s with
  | EmptyString => EmptyString
  | String c s' => String (ascii_lower_char c) (ascii_lower s')
  end.

(** [HOUSES], the same list in both files. *)
Definition HOUSES : list string :=
  ["Gryffindor"; "Slytherin"; "Hufflepuff"; "Ravenclaw"].

(** ** Data model *)

(** A row of [students]; the primary key [id] is the key of the table.
    Every row the two programs write has an integer in [total_points], so the
    column is a [Z], on which [int(x)] and [x or 0] are the identity. *)
Record Student : Type := mkStudent {
  name : string;
  email : string;
  phone : option string;
  instagram : option string;
  linkedin : option string;
  assigned_house : option string;
  total_points : Z
}.

(** A row of [point_transactions]; [id] and [created_at] are filled by the
    database, and rows are kept here in insertion order. *)
Record PointTransaction : Type := mkPointTransaction {
  tx_student_id : string;
  tx_delta : Z;
  tx_reason : string
}.

(** [QuizAnswer] of [src/backend/main.py]. *)
Record QuizAnswer : Type := mkQuizAnswer {
  question_id : Z;
  answer_value : Z
}.

(** The [answers] column of [quiz_answers] is JSON: a list of strings in
    [src/main.py], a list of dumped [QuizAnswer] in [src/backend/main.py]. *)
Inductive answers_json : Type :=
  | TextAnswers (l : list string)
  | DumpedAnswers (l : list QuizAnswer).

Record QuizAnswersRow : Type := mkQuizAnswersRow {
  qa_student_id : string;
  qa_answers : answers_json
}.

(** The four tables.  [houses] maps the unique [name] to [total_points]. *)
Record Store : Type := mkStore {
  students : gmap string Student;
  houses : gmap string Z;
  point_transactions : list PointTransaction;
  quiz_answers : list QuizAnswersRow
}.

(** What a deployment fixes from outside the two files: whether the
    Supabase client could be created, the [ADMIN_API_KEY] variable, which of
    the two SQL functions called through [rpc] exist in the database, and
    whether [.single()] on an empty result raises or yields no data. *)
Record Env : Type := mkEnv {
  supabase_configured : bool;
  ADMIN_API_KEY : option string;
  rpc_ensure_house_exists : bool;
  rpc_adjust_house_points : bool;
  single_empty_raises : bool
}.

(** Request bodies. *)
Record SignupRequest : Type := mkSignupRequest {
  req_name : string;
  req_email : string;
  req_password : string;
  req_phone : option string;
  req_instagram : option string;
  req_linkedin : option string
}.

Record PointsRequest : Type := mkPointsRequest {
  student_id : string;
  delta : Z;
  reason : string
}.

(** The identity collaborator, as the answers it gives: each call returns
    the [user] of its response ([None] for no user) or raises. *)
Record Auth : Type := mkAuth {
  sign_up : string → string → res (option string);
  get_user_by_email : string → res (option string);
  create_user : string → string → res (option string)
}.

(** ** Store monad: a call returns a value or raises, and the writes done
    before a [raise] stay done. *)
Definition M (A : Type) : Type := Store → res A * Store.

#[global] Instance M_ret : MRet M := λ A a s, (Ok a, s).
#[global] Instance M_bind : MBind M := λ A B f m s,
  match m s with
  | (Ok a, s') => f a s'
  | (Raise e, s') => (Raise e, s')
  end.

Definition raise {A} (e : exn) : M A := λ s, (Raise e, s).
Definition lift {A} (r : res A) : M A := λ s, (r, s).
Definition modify (f : Store → Store) : M unit := λ s, (Ok tt, f s).

(** [try: body except Exception: handler] *)
Definition try_except {A} (body : M A) (handler : exn → M A) : M A := λ s,
  match body s with
  | (Ok a, s') => (Ok a, s')
  | (Raise e, s') => handler e s'
  end.

Definition set_students (f : gmap string Student → gmap string Student)
    (s : Store) : Store :=
  mkStore (f (students s)) (houses s) (point_transactions s) (quiz_answers s).

Definition set_houses (f : gmap string Z → gmap string Z) (s : Store) : Store :=
  mkStore (students s) (f (houses s)) (point_transactions s) (quiz_answers s).

(** The total the [houses] table holds for a house, 0 without a row. *)
Definition house_total (s : Store) (n : string) : Z :=
  default 0 (houses s !! n).

(** Python truthiness of an optional string: [None] and [""] are false. *)
Definition truthy (o : option string) : bool :=
  match o with
  | Some x => if decide (x = "") then false else true
  | None => false
  end.

(** *** Table calls of the Supabase client

    [insert] adds a row; [update(..).eq(k, v)] rewrites the named columns of
    the rows that match, and matches nothing silently; [upsert(row,
    on_conflict=k)] inserts, or on a row with the same key overwrites the
    columns given; [select(..).eq(k, v).limit(1)] returns the list of rows
    that match. *)

(** A student row with the [total_points] column, and with the
    [assigned_house] column, rewritten. *)
Definition with_total (r : Student) (v : Z) : Student :=
  mkStudent (name r) (email r) (phone r) (instagram r) (linkedin r)
            (assigned_house r) v.

Definition with_house (r : Student) (h : option string) : Student :=
  mkStudent (name r) (email r) (phone r) (instagram r) (linkedin r)
            h (total_points r).

(** [table("students").select(..).eq("id", id).limit(1).execute().data] *)
Definition students_select (id : string) : M (list Student) := λ s,
  (Ok (option_list (students s !! id)), s).

(** [table("students").select(..).eq("id", id).single().execute().data] *)
Definition students_select_single (env : Env) (id : string)
    : M (option Student) := λ s,
  match students s !! id with
  | Some row => (Ok (Some row), s)
  | None => if single_empty_raises env then (Raise APIError, s) else (Ok None, s)
  end.

(** [table("students").update({"total_points": v}).eq("id", id)] *)
Definition students_update_total_points (id : string) (v : Z) : M unit :=
  modify (set_students (alter (λ r, with_total r v) id)).

(** [table("students").update({"assigned_house": h}).eq("id", id)] *)
Definition students_update_assigned_house (id : string) (h : string) : M unit :=
  modify (set_students (alter (λ r, with_house r (Some h)) id)).

(** [table("students").upsert(profile, on_conflict="id")], every column
    given. *)
Definition students_upsert (id : string) (profile : Student) : M unit :=
  modify (set_students (insert id profile)).

(** [table("houses").upsert({"name": n, "total_points": v},
    on_conflict="name")] *)
Definition houses_upsert (n : string) (v : Z) : M unit :=
  modify (set_houses (insert n v)).

(** [table("houses").select("total_points").eq("name", n).limit(1)] *)
Definition houses_select (n : string) : M (list Z) := λ s,
  (Ok (option_list (houses s !! n)), s).

(** [table("houses").update({"total_points": v}).eq("name", n)] *)
Definition houses_update (n : string) (v : Z) : M unit :=
  modify (set_houses (alter (λ _, v) n)).

(** [table("point_transactions").insert(row)] *)
Definition point_transactions_insert (row : PointTransaction) : M unit :=
  modify (λ s, mkStore (students s) (houses s)
                       (point_transactions s ++ [row]) (quiz_answers s)).

(** [table("quiz_answers").insert(row)] *)
Definition quiz_answers_insert (row : QuizAnswersRow) : M unit :=
  modify (λ s, mkStore (students s) (houses s) (point_transactions s)
                       (quiz_answers s ++ [row])).

(** *** Read queries

    A [select] names the columns it wants; the rows the endpoints answer
    with are these projections. *)

(** [select("id,name,email,assigned_house,total_points")] on [students] *)
Record ProfileRow : Type := mkProfileRow {
  pr_id : string;
  pr_name : string;
  pr_email : string;
  pr_assigned_house : option string;
  pr_total_points : Z
}.

Definition profile_row (id : string) (r : Student) : ProfileRow :=
  mkProfileRow id (name r) (email r) (assigned_house r) (total_points r).

(** [select("id,name,assigned_house,total_points")] on [students] *)
Record TopRow : Type := mkTopRow {
  tr_id : string;
  tr_name : string;
  tr_assigned_house : option string;
  tr_total_points : Z
}.

Definition top_row (id : string) (r : Student) : TopRow :=
  mkTopRow id (name r) (assigned_house r) (total_points r).

(** [select("delta,reason,created_at")] on [point_transactions]; the
    columns the database fills are not modelled. *)
Record TxRow : Type := mkTxRow {
  txr_delta : Z;
  txr_reason : string
}.

Definition tx_row (tx : PointTransaction) : TxRow :=
  mkTxRow (tx_delta tx) (tx_reason tx).

(** [order(column)] is carried out by the database, which is free in the
    order it gives rows with equal keys; the two sorts the programs ask for
    are taken as they come from the deployment's database. *)
Record Orders : Type := mkOrders {
  by_total_desc : ∀ A : Type, (A → Z) → list A → list A;
  by_name : ∀ A : Type, (A → string) → list A → list A
}.

(** [table("houses").select("name,total_points").execute().data], in the
    order the database returns the rows. *)
Definition houses_select_all : M (list (string * Z)) := λ s,
  (Ok (map_to_list (houses s)), s).

(** [table("houses").select("name,total_points")
      .order("total_points", desc=True)] *)
Definition houses_select_ranked (o : Orders) : M (list (string * Z)) := λ s,
  (Ok (by_total_desc o _ snd (map_to_list (houses s))), s).

(** [table("point_transactions").select(..).eq("student_id", id)
      .order("created_at", desc=True).limit(n)]: [created_at] is the time of
    insertion and the rows are kept in insertion order, so the newest come
    first in the reversed list. *)
Definition point_transactions_recent (id : string) (n : nat)
    : M (list TxRow) := λ s,
  (Ok (take n (reverse (tx_row <$>
         filter (λ tx, tx_student_id tx = id) (point_transactions s)))), s).

(** [table("students").select("id,name,assigned_house,total_points")
      .order("total_points", desc=True).limit(n)] *)
Definition students_select_top (o : Orders) (n : nat) : M (list TopRow) := λ s,
  (Ok (take n (uncurry top_row <$>
         by_total_desc o _ (λ row, total_points row.2)
                       (map_to_list (students s)))), s).

(** [q = table("students").select(..)], then [q.eq("assigned_house", house)]
    when [house] is truthy, then [q.order("name")]; SQL equality never holds
    on a null [assigned_house]. *)
Definition students_select_by_house (o : Orders) (house : option string)
    : M (list ProfileRow) := λ s,
  let rows := map_to_list (students s) in
  let rows := if truthy house
              then filter (λ row, assigned_house row.2 = house) rows
              else rows in
  (Ok (uncurry profile_row <$> by_name o _ (λ row, name row.2) rows), s).

(** [table("students").insert(profile)]: [id] is unique in [students] (the
    upsert of [src/main.py] names it as its conflict key), so a second row
    with the same [id] is refused by the database. *)
Definition students_insert (id : string) (profile : Student) : M unit := λ s,
  match students s !! id with
  | Some _ => (Raise APIError, s)
  | None => (Ok tt, set_students (insert id profile) s)
  end.

(** [table("students").upsert({"id", "name", "email", "total_points",
    "assigned_house"}, on_conflict="id")]: on a conflict only the columns
    given are rewritten; a new row has nulls in the others. *)
Definition students_upsert_core (id : string) (nm em : string)
    (total : Z) (house : option string) : M unit :=
  modify (set_students (λ t,
    <[id := match t !! id with
            | Some r => mkStudent nm em (phone r) (instagram r) (linkedin r)
                                  house total
            | None => mkStudent nm em None None None house total
            end]> t)).

(** *** The two SQL functions behind [rpc]

    Their text is not part of the Python sources. *)

(** Modelled from the spec: the SQL function [ensure_house_exists] is
    missing; per the House Registry, [ensure_exists(name)] creates the house
    with zero total if absent and is a no-op otherwise. *)
Definition sql_ensure_house_exists (house_name : string)
    (h : gmap string Z) : gmap string Z :=
  match h !! house_name with
  | Some _ => h
  | None => <[house_name := 0]> h
  end.

(** Modelled from the spec: the SQL function [adjust_house_points] is
    missing; per the House Registry, [adjust(name, delta)] adds [delta] to
    the named house's total in one atomic step, creating the house with
    total [delta] when it does not exist. *)
Definition sql_adjust_house_points (house_name : string) (d : Z)
    (h : gmap string Z) : gmap string Z :=
  <[house_name := default 0 (h !! house_name) + d]> h.

(** [rpc("ensure_house_exists", ..).execute()]: raises when the function
    was not created in the database. *)
Definition rpc_ensure (env : Env) (house_name : string) : M unit :=
  if rpc_ensure_house_exists env
  then modify (set_houses (sql_ensure_house_exists house_name))
  else raise APIError.

(** [rpc("adjust_house_points", ..).execute()] *)
Definition rpc_adjust (env : Env) (house_name : string) (d : Z) : M unit :=
  if rpc_adjust_house_points env
  then modify (set_houses (sql_adjust_house_points house_name d))
  else raise APIError.

(** [user.id], an [AttributeError] on [None]. *)
Definition user_id_of (user : option string) : res string :=
  match user with
  | Some i => Ok i
  | None => Raise AttributeError
  end.

(** ** [src/main.py] *)
Module Main.

Definition require_supabase (env : Env) : M unit :=
  if supabase_configured env then mret tt else raise (HTTPException 500).

Definition ensure_houses_seeded (env : Env) : M unit :=
  require_supabase env;;
  (* one [upsert] of the four rows [{"name": h, "total_points": 0}] *)
  modify (set_houses (λ t, fold_left (λ t h, <[h := 0]> t) HOUSES t)).

Definition ensure_house_exists (env : Env) (name : string) : M unit :=
  require_supabase env;;
  try_except (rpc_ensure env name)
             (λ _, houses_upsert name 0).

Definition adjust_house_points (env : Env) (house : option string)
    (delta : Z) : M unit :=
  if negb (truthy house) then mret tt
  else
    let house := default "" house in
    require_supabase env;;
    try_except (rpc_adjust env house delta)
      (λ _,
         ensure_house_exists env house;;
         data ← houses_select house;
         let current := match data with
                        | [] => 0
                        | total :: _ => total
                        end in
         houses_update house (current + delta)).

Section with_lower.
(** [str.lower] of the Python runtime. *)
Variable lower : string → string.

(** Body of the loop of [map_quiz_to_house]. *)
Definition score_answer (scores : pydict) (a : string) : res pydict :=
  let al := lower a in
  scores ← (if any_in al ["brave"; "courage"; "daring"; "bold"]
            then dict_iadd "Gryffindor" 1 scores else Ok scores);
  scores ← (if any_in al ["ambition"; "cunning"; "power"; "lead"]
            then dict_iadd "Slytherin" 1 scores else Ok scores);
  scores ← (if any_in al ["loyal"; "patience"; "kind"; "fair"]
            then dict_iadd "Hufflepuff" 1 scores else Ok scores);
  (if any_in al ["wisdom"; "learn"; "wit"; "clever"]
   then dict_iadd "Ravenclaw" 1 scores else Ok scores).

(** The [scores] dictionary when the loop ends. *)
Definition quiz_scores (answers : list string) : res pydict :=
  for_each score_answer answers (dict_zeros HOUSES).

Definition map_quiz_to_house (answers : list string) : res string :=
  scores ← quiz_scores answers;
  best ← py_max snd scores;
  Ok (fst best).

(** [POST /quiz/submit/{user_id}] *)
Definition submit_quiz (env : Env) (user_id : string)
    (answers : list string) : M string :=
  require_supabase env;;
  house ← lift (map_quiz_to_house answers);
  quiz_answers_insert (mkQuizAnswersRow user_id (TextAnswers answers));;
  ensure_house_exists env house;;
  students_update_assigned_house user_id house;;
  mret house.
End with_lower.

Definition admin_guard (env : Env) (x_admin_key : option string) : M unit :=
  let required := if truthy (ADMIN_API_KEY env) then ADMIN_API_KEY env
                  else None in
  if negb (truthy required) then mret tt
  else if decide (x_admin_key ≠ required)
       then raise (HTTPException 401) else mret tt.

(** The [try] block of [signup] that settles [user_id]. *)
Definition signup_user_id (auth : Auth) (payload : SignupRequest)
    : res string :=
  let attempt :=
    user ← sign_up auth (req_email payload) (req_password payload);
    user ← match user with
           | None => get_user_by_email auth (req_email payload)
           | Some _ => Ok user
           end;
    user_id_of user in
  match attempt with
  | Ok user_id => Ok user_id
  | Raise _ =>
      match create_user auth (req_email payload) (req_password payload)
              ≫= user_id_of with
      | Ok user_id => Ok user_id
      | Raise _ => Raise (HTTPException 400)
      end
  end.

(** [POST /auth/signup] *)
Definition signup (env : Env) (auth : Auth) (payload : SignupRequest)
    : M string :=
  require_supabase env;;
  user_id ← lift (signup_user_id auth payload);
  ensure_houses_seeded env;;
  let profile :=
    mkStudent (req_name payload) (req_email payload) (req_phone payload)
              (req_instagram payload) (req_linkedin payload) None 0 in
  students_upsert user_id profile;;
  mret user_id.

(** [POST /admin/points]; the value is [new_total] of the response. *)
Definition admin_points (env : Env) (payload : PointsRequest)
    (x_admin_key : option string) : M Z :=
  admin_guard env x_admin_key;;
  require_supabase env;;
  data ← students_select (student_id payload);
  match data with
  | [] => raise (HTTPException 404)
  | student :: _ =>
      let house := assigned_house student in
      point_transactions_insert
        (mkPointTransaction (student_id payload) (delta payload)
                            (reason payload));;
      let new_total := total_points student + delta payload in
      students_update_total_points (student_id payload) new_total;;
      adjust_house_points env house (delta payload);;
      mret new_total
  end.

(** [GET /student/dashboard/{user_id}]: the profile, the house standings
    and the 20 newest transactions. *)
Definition student_dashboard (env : Env) (user_id : string)
    : M (ProfileRow * list (string * Z) * list TxRow) :=
  require_supabase env;;
  data ← students_select user_id;
  match data with
  | [] => raise (HTTPException 404)
  | profile :: _ =>
      houses ← houses_select_all;
      transactions ← point_transactions_recent user_id 20;
      mret (profile_row user_id profile, houses, transactions)
  end.

(** [GET /admin/overview]: the houses and the ten first students, both by
    descending total. *)
Definition admin_overview (o : Orders) (env : Env)
    (x_admin_key : option string) : M (list (string * Z) * list TopRow) :=
  admin_guard env x_admin_key;;
  require_supabase env;;
  houses ← houses_select_ranked o;
  top_students ← students_select_top o 10;
  mret (houses, top_students).

(** [GET /admin/students?house=] *)
Definition admin_students (o : Orders) (env : Env) (house : option string)
    (x_admin_key : option string) : M (list ProfileRow) :=
  admin_guard env x_admin_key;;
  require_supabase env;;
  students_select_by_house o house.

Definition admin_email : string := "harshvardhanpurohit2020@gmail.com".
Definition admin_password : string := "admin123@@@".

(** The [try]/[except] of [admin_bootstrap] that settles [admin_user]: the
    [try] succeeds only when the lookup answers with a user; every other
    outcome goes to [create_user], whose exceptions are not caught. *)
Definition bootstrap_admin_user (auth : Auth) : res (option string) :=
  match get_user_by_email auth admin_email with
  | Ok (Some user) => Ok (Some user)
  | _ => create_user auth admin_email admin_password
  end.

(** [POST /admin/bootstrap] *)
Definition admin_bootstrap (env : Env) (auth : Auth)
    (x_admin_key : option string) : M unit :=
  admin_guard env x_admin_key;;
  require_supabase env;;
  ensure_houses_seeded env;;
  admin_user ← lift (bootstrap_admin_user auth);
  admin_id ← lift (user_id_of admin_user);
  students_upsert_core admin_id "Admin" admin_email 0 None.

End Main.

(** ** [src/backend/main.py] *)
Module Backend.

Definition ensure_client (env : Env) : M unit :=
  if supabase_configured env then mret tt else raise (HTTPException 500).

(** Body of the loop of [assign_house_from_quiz]. *)
Definition score_answer (scores : pydict) (a : QuizAnswer) : res pydict :=
  let idx := Z.max 0 (Z.min 3 (answer_value a)) in
  h ← list_getitem HOUSES idx;
  dict_iadd h 1 scores.

(** The [scores] dictionary when the loop ends. *)
Definition quiz_scores (answers : list QuizAnswer) : res pydict :=
  for_each score_answer answers (dict_zeros HOUSES).

Definition assign_house_from_quiz (answers : list QuizAnswer) : res string :=
  scores ← quiz_scores answers;
  best ← py_max snd scores;
  Ok (fst best).

(** [except Exception as e: raise HTTPException(status_code=400, ..)];
    [HTTPException] is itself an [Exception], so one raised inside the
    [try] is caught here as well. *)
Definition except_400 {A} (body : M A) : M A :=
  try_except body (λ _, raise (HTTPException 400)).

(** [POST /quiz/submit/{user_id}] *)
Definition quiz_submit (env : Env) (user_id : string)
    (answers : list QuizAnswer) : M string :=
  ensure_client env;;
  except_400 (
    house ← lift (assign_house_from_quiz answers);
    students_update_assigned_house user_id house;;
    quiz_answers_insert (mkQuizAnswersRow user_id (DumpedAnswers answers));;
    rpc_ensure env house;;
    mret house).

(** [POST /admin/points]; the value is [new_total] of the response. *)
Definition admin_points (env : Env) (change : PointsRequest) : M Z :=
  ensure_client env;;
  except_400 (
    stu ← students_select_single env (student_id change);
    match stu with
    | None => raise (HTTPException 404)
    | Some stu =>
        let new_total := total_points stu + delta change in
        students_update_total_points (student_id change) new_total;;
        point_transactions_insert
          (mkPointTransaction (student_id change) (delta change)
                              (reason change));;
        let house := assigned_house stu in
        (if truthy house
         then rpc_adjust env (default "" house) (delta change)
         else mret tt);;
        mret new_total
    end).

(** [POST /auth/signup]: the profile is inserted, not upserted. *)
Definition signup (env : Env) (auth : Auth) (payload : SignupRequest)
    : M string :=
  ensure_client env;;
  except_400 (
    user ← lift (sign_up auth (req_email payload) (req_password payload));
    match user with
    | None => raise (HTTPException 400)
    | Some user_id =>
        let profile :=
          mkStudent (req_name payload) (req_email payload) (req_phone payload)
                    (req_instagram payload) (req_linkedin payload) None 0 in
        students_insert user_id profile;;
        mret user_id
    end).

(** [GET /student/dashboard/{user_id}]: the 50 newest transactions. *)
Definition student_dashboard (env : Env) (user_id : string)
    : M (ProfileRow * list (string * Z) * list TxRow) :=
  ensure_client env;;
  except_400 (
    student ← students_select_single env user_id;
    match student with
    | None => raise (HTTPException 404)
    | Some student =>
        houses ← houses_select_all;
        transactions ← point_transactions_recent user_id 50;
        mret (profile_row user_id student, houses, transactions)
    end).

(** [GET /admin/overview]: the houses in the database's order. *)
Definition admin_overview (o : Orders) (env : Env)
    : M (list (string * Z) * list TopRow) :=
  ensure_client env;;
  except_400 (
    houses ← houses_select_all;
    top ← students_select_top o 10;
    mret (houses, top)).

(** [GET /admin/students?house=] *)
Definition admin_students (o : Orders) (env : Env) (house : option string)
    : M (list ProfileRow) :=
  ensure_client env;;
  except_400 (students_select_by_house o house).

End Backend.

(** ** Concurrent requests on one house

    Requests run in parallel and meet only in the database, so a request
    inside [Main.adjust_house_points] moves one database call at a time and
    the calls of different requests interleave freely. *)
Module Concurrent.

(** The call a request is about to make, past the two local checks of
    [adjust_house_points]; [current] is the local variable read on line 96
    and used on line 100. *)
Inductive pc : Type :=
  | CallAdjustRpc
  | CallEnsureRpc
  | CallUpsert
  | CallSelect
  | CallUpdate (current : Z)
  | Returned.

Section one_house.
Variables (env : Env) (house : string) (delta : Z).

(** One database call of one request. *)
Definition thread_step (p : pc) (s : Store) : option (pc * Store) :=
  match p with
  | CallAdjustRpc =>
      if rpc_adjust_house_points env
      then Some (Returned,
                 set_houses (sql_adjust_house_points house delta) s)
      else Some (CallEnsureRpc, s)
  | CallEnsureRpc =>
      if rpc_ensure_house_exists env
      then Some (CallSelect, set_houses (sql_ensure_house_exists house) s)
      else Some (CallUpsert, s)
  | CallUpsert => Some (CallSelect, set_houses (insert house 0) s)
  | CallSelect =>
      Some (CallUpdate (match option_list (houses s !! house) with
                        | [] => 0
                        | total :: _ => total
                        end), s)
  | CallUpdate current =>
      Some (Returned, set_houses (alter (λ _, current + delta) house) s)
  | Returned => None
  end.

(** A request alone, call after call. *)
Fixpoint run_alone (fuel : nat) (p : pc) (s : Store) : pc * Store :=
  match fuel with
  | O => (p, s)
  | S fuel' =>
      match thread_step p s with
      | Some (p', s') => run_alone fuel' p' s'
      | None => (p, s)
      end
  end.

(** The requests in flight and the database they share. *)
Definition config : Type := list pc * Store.

(** Any request that has a call left may make it next. *)
Inductive step : config → config → Prop :=
  | step_request (i : nat) (p p' : pc) (ts : list pc) (s s' : Store) :
      ts !! i = Some p →
      thread_step p s = Some (p', s') →
      step (ts, s) (<[i := p']> ts, s').

(** The schedule that lets the requests move in the given order. *)
Fixpoint run_schedule (sched : list nat) (c : config) : config :=
  match sched with
  | [] => c
  | i :: sched' =>
      match c.1 !! i with
      | Some p =>
          match thread_step p c.2 with
          | Some (p', s') => run_schedule sched' (<[i := p']> c.1, s')
          | None => run_schedule sched' c
          end
      | None => run_schedule sched' c
      end
  end.
End one_house.

(** [n] requests that have just entered [adjust_house_points]. *)
Definition spawn (n : nat) : list pc := replicate n CallAdjustRpc.

Definition all_returned (ts : list pc) : Prop := Forall (λ p, p = Returned) ts.

(** How many of the requests have returned. *)
Fixpoint returned_count (ts : list pc) : nat :=
  match ts with
  | [] => 0
  | Returned :: ts' => S (returned_count ts')
  | _ :: ts' => returned_count ts'
  end.

(** What every configuration reached from [n] fresh requests satisfies when
    the SQL function [adjust_house_points] exists: a request is either
    before its one call or has returned, and the house holds one [delta]
    per returned request. *)
Definition rpc_invariant (house : string) (delta : Z) (n : nat) (s0 : Store)
    (c : config) : Prop :=
  length c.1 = n ∧
  Forall (λ p, p = CallAdjustRpc ∨ p = Returned) c.1 ∧
  house_total c.2 house =
    house_total s0 house + Z.of_nat (returned_count c.1) * delta.

End Concurrent.

(** ** Sample data *)

Definition env_all_rpc : Env := mkEnv true None true true true.
Definition env_no_rpc : Env := mkEnv true None false false true.
Definition env_ensure_rpc_only : Env := mkEnv true None true false true.

Definition harry : Student :=
  mkStudent "Harry" "harry@example.org" None None None (Some "Gryffindor") 7.

Definition store0 : Store :=
  mkStore {["u1" := harry]} {["Gryffindor" := 50]} [] [].

Definition store_zero : Store :=
  mkStore ∅ {["Gryffindor" := 0]} [] [].

(** "u1" with three logged changes of its own and one of another student
    in between. *)
Definition store_log : Store :=
  mkStore {["u1" := harry]} {["Gryffindor" := 50]}
    [mkPointTransaction "u1" 3 "a"; mkPointTransaction "u2" 9 "x";
     mkPointTransaction "u1" 4 "b"] [].

(** "u1" before any points: total 0 and an empty log. *)
Definition store_fresh : Store :=
  mkStore {["u1" := with_total harry 0]} ∅ [] [].

(** An identity service in which the email is already registered as "u1":
    [sign_up] yields no user and the lookup by email finds it. *)
Definition auth_existing : Auth :=
  mkAuth (λ _ _, Ok None) (λ _, Ok (Some "u1")) (λ _ _, Raise APIError).

(** An identity service in which the email is registered as "u1" as well,
    but which refuses a second registration: [sign_up] raises, and so does
    [create_user]; the lookup by email would find the user. *)
Definition auth_refusing : Auth :=
  mkAuth (λ _ _, Raise APIError) (λ _, Ok (Some "u1")) (λ _ _, Raise APIError).

Definition harry_again : SignupRequest :=
  mkSignupRequest "Harry P" "harry@example.org" "secret" None None None.

(** ** Reading the scorers' result *)

(** The tally a [scores] dictionary holds for a house. *)
Definition tally (scores : pydict) (h : string) : Z :=
  default 0 (dict_get h scores).

(** [best] is the first house of [HOUSES] whose tally is maximal: no house
    has more, and every house before it has strictly less. *)
Definition first_max_house (scores : pydict) (best : string) : Prop :=
  ∃ i : nat, HOUSES !! i = Some best ∧
    (∀ (j : nat) h, HOUSES !! j = Some h → tally scores h ≤ tally scores best) ∧
    (∀ (j : nat) h, HOUSES !! j = Some h → (j < i)%nat →
       tally scores h < tally scores best).

(** The nearest bound of [0, 3]. *)
Definition nearest_bound (v : Z) : Z :=
  if v <? 0 then 0 else if 3 <? v then 3 else v.

(** The keyword lists of [map_quiz_to_house], by house. *)
Definition house_keywords : list (string * list string) :=
  [("Gryffindor", ["brave"; "courage"; "daring"; "bold"]);
   ("Slytherin", ["ambition"; "cunning"; "power"; "lead"]);
   ("Hufflepuff", ["loyal"; "patience"; "kind"; "fair"]);
   ("Ravenclaw", ["wisdom"; "learn"; "wit"; "clever"])].

(** The requests [admin_guard] lets through. *)
Definition admin_key_accepted (env : Env) (x_admin_key : option string) : bool :=
  negb (truthy (ADMIN_API_KEY env)) ||
  bool_decide (x_admin_key = ADMIN_API_KEY env).

(** The transactions of one student, in insertion order. *)
Definition transactions_of (id : string) (s : Store) : list PointTransaction :=
  filter (λ tx, tx_student_id tx = id) (point_transactions s).

(** A sequence of [POST /admin/points] requests for one student, one per
    [(delta, reason)], each started when the one before has answered. *)
Fixpoint apply_changes (env : Env) (x_admin_key : option string)
    (id : string) (changes : list (Z * string)) : M unit :=
  match changes with
  | [] => mret tt
  | (d, why) :: rest =>
      Main.admin_points env (mkPointsRequest id d why) x_admin_key;;
      apply_changes env x_admin_key id rest
  end.

(** One vote or none. *)
Definition hit (b : bool) : Z := if b then 1 else 0.

(** The sum of the deltas logged for a student, and the total its row
    holds (0 without a row). *)
Definition ledger_sum (id : string) (s : Store) : Z :=
  foldr Z.add 0 (tx_delta <$> transactions_of id s).

Definition student_total (s : Store) (id : string) : Z :=
  default 0 (total_points <$> students s !! id).

(** The ledger adds up: every stored total is the sum of the student's
    logged deltas. *)
Definition ledger_consistent (s : Store) : Prop :=
  ∀ id, student_total s id = ledger_sum id s.

(** Only the four houses are in play: every assigned house and every row
    of [houses] carries one of the names of [HOUSES]. *)
Definition registry_closed (s : Store) : Prop :=
  (∀ id st h, students s !! id = Some st → assigned_house st = Some h →
     h ∈ HOUSES) ∧
  (∀ n, is_Some (houses s !! n) → n ∈ HOUSES).

(** The answers of the identity service on which [signup] ends with the
    user id [id]: [sign_up] returns the user; or it returns no user and the
    lookup by email finds one; or neither gives a user (an exception or no
    user) and [create_user] returns one. *)
Definition settles_on (auth : Auth) (payload : SignupRequest) (id : string)
    : Prop :=
  let em := req_email payload in
  let pw := req_password payload in
  sign_up auth em pw = Ok (Some id) ∨
  (sign_up auth em pw = Ok None ∧ get_user_by_email auth em = Ok (Some id)) ∨
  ((∀ u, sign_up auth em pw ≠ Ok (Some u)) ∧
   (sign_up auth em pw = Ok None →
    ∀ u, get_user_by_email auth em ≠ Ok (Some u)) ∧
   create_user auth em pw = Ok (Some id)).

(** The profile [signup] writes for a request. *)
Definition fresh_profile (payload : SignupRequest) : Student :=
  mkStudent (req_name payload) (req_email payload) (req_phone payload)
            (req_instagram payload) (req_linkedin payload) None 0.

(** The four house rows after the bulk upsert of [ensure_houses_seeded], and
    the admin row after the upsert of [admin_bootstrap] over the row [old]. *)
Definition seed_houses (t : gmap string Z) : gmap string Z :=
  fold_left (λ t h, <[h := 0]> t) HOUSES t.

Definition admin_row (old : option Student) : Student :=
  match old with
  | Some r => mkStudent "Admin" Main.admin_email (phone r) (instagram r)
                        (linkedin r) None 0
  | None => mkStudent "Admin" Main.admin_email None None None None 0
  end.

(** A request answered with an HTTP error and no write. *)
Definition refused {A} (status_code : Z) (s : Store) : res A * Store :=
  (Raise (HTTPException status_code), s).

(** What is assumed of the database's two sorts: each returns the rows it
    was given, and the one on totals returns them in descending order. *)
Definition orders_sound (o : Orders) : Prop :=
  (∀ (A : Type) (key : A → Z) (l : list A),
     by_total_desc o A key l ≡ₚ l ∧
     StronglySorted (λ x y, key y ≤ key x) (by_total_desc o A key l)) ∧
  (∀ (A : Type) (key : A → string) (l : list A), by_name o A key l ≡ₚ l).

(** A database that sorts by merging; names are compared as byte strings. *)
Definition merge_orders : Orders :=
  mkOrders
    (λ A key, @merge_sort A (λ x y, key y ≤ key x)
                (λ x y, decide (key y ≤ key x)))
    (λ A key, @merge_sort A (λ x y, String.leb (key x) (key y) = true)
                (λ x y, decide (String.leb (key x) (key y) = true))).

(** The number of answers whose clamped value is [i]. *)
Definition votes_for (i : Z) (answers : list QuizAnswer) : Z :=
  foldr Z.add 0 ((λ a, hit (nearest_bound (answer_value a) =? i)) <$> answers).

(** The number of answers in which a keyword of the list occurs. *)
Definition mentions (lower : string → string) (keywords : list string)
    (answers : list string) : Z :=
  foldr Z.add 0 ((λ a, hit (any_in (lower a) keywords)) <$> answers).


(** A [scores] dictionary with the four houses in the order of [HOUSES]. *)
Definition scores4 (g s h r : Z) : pydict :=
  [("Gryffindor", g); ("Slytherin", s); ("Hufflepuff", h); ("Ravenclaw", r)].

(** Unfolding of the store monad in proofs. *)
Ltac unfold_store_calls :=
  unfold students_select, students_select_single,
    students_update_total_points, students_update_assigned_house,
    students_upsert, houses_upsert, houses_select, houses_update,
    point_transactions_insert, quiz_answers_insert, rpc_ensure, rpc_adjust,
    try_except, modify, raise, lift in *.

Ltac run_m := unfold_store_calls; unfold mbind, M_bind, mret, M_ret in *; simpl.

Ltac unfold_read_calls :=
  unfold houses_select_all, houses_select_ranked, point_transactions_recent,
    students_select_top, students_select_by_house, students_insert,
    students_upsert_core in *.

(** * Properties *)

(** ** Python runtime *)

Lemma for_each_app {A S} (body : S → A → res S) (l1 l2 : list A) (s : S) :
  for_each body (l1 ++ l2) s = for_each body l1 s ≫= for_each body l2.
Proof.
  revert s. induction l1 as [|a l1 IH]; intros s; simpl; [done|].
  destruct (body s a) as [s'|e]; simpl; [apply IH | done].
Qed.

(** [max_from] returns the first item with the greatest key. *)
Lemma max_from_first_max {A} (key : A → Z) (l : list A) (best : A) :
  ∃ i : nat, (best :: l) !! i = Some (max_from key best l) ∧
    (∀ (j : nat) x, (best :: l) !! j = Some x →
       key x ≤ key (max_from key best l)) ∧
    (∀ (j : nat) x, (best :: l) !! j = Some x → (j < i)%nat →
       key x < key (max_from key best l)).
Proof.
  revert best. induction l as [|x l IH]; intros best; simpl.
  - exists 0%nat. split; [done|]. split.
    + intros [|j] y Hy; simpl in Hy; [|done]. injection Hy as ->. lia.
    + intros j y _ Hj. lia.
  - destruct (Z.ltb_spec (key best) (key x)) as [Hlt|Hge].
    + destruct (IH x) as (i & Hi & Hmax & Hbefore).
      exists (S i). split; [done|]. split.
      * intros [|j] y Hy; simpl in Hy.
        -- injection Hy as <-. specialize (Hmax 0%nat x eq_refl). lia.
        -- eauto.
      * intros [|j] y Hy Hj; simpl in Hy.
        -- injection Hy as <-. specialize (Hmax 0%nat x eq_refl). lia.
        -- apply (Hbefore j); [done | lia].
    + destruct (IH best) as (i & Hi & Hmax & Hbefore).
      destruct i as [|i].
      * exists 0%nat. simpl in Hi. injection Hi as Hi. rewrite <- Hi.
        split; [done|]. split; [|intros; lia].
        intros [|[|j]] y Hy; simpl in Hy.
        -- injection Hy as <-. lia.
        -- injection Hy as <-. lia.
        -- specialize (Hmax (S j) y Hy). rewrite <- Hi in Hmax. done.
      * exists (S (S i)). split; [done|]. split.
        -- intros [|[|j]] y Hy; simpl in Hy.
           ++ apply (Hmax 0%nat). done.
           ++ injection Hy as <-.
              specialize (Hmax 0%nat best eq_refl). lia.
           ++ apply (Hmax (S j)). done.
        -- intros [|[|j]] y Hy Hj; simpl in Hy.
           ++ apply (Hbefore 0%nat); [done | lia].
           ++ injection Hy as <-.
              specialize (Hbefore 0%nat best eq_refl ltac:(lia)). lia.
           ++ apply (Hbefore (S j)); [done | lia].
Qed.

Lemma append_cons (c : ascii) (s t : string) :
  (String c s ++ t)%string = String c (s ++ t)%string.
Proof. reflexivity. Qed.

(** [k in s] holds exactly when [s] is some text, [k], some text. *)
Lemma prefix_true_iff (k s : string) :
  String.prefix k s = true ↔ ∃ post, s = (k ++ post)%string.
Proof.
  revert s. induction k as [|c k IH]; intros s.
  - destruct s; simpl; (split; [intros _; by eexists | done]).
  - destruct s as [|c' s]; simpl.
    { split; [done | intros [post Hp]; by rewrite append_cons in Hp]. }
    destruct (Ascii.ascii_dec c c') as [->|Hne].
    + rewrite IH. split; intros [post Hp]; exists post;
        rewrite append_cons in *; congruence.
    + split; [done | intros [post Hp]; rewrite append_cons in Hp; congruence].
Qed.

Lemma str_in_true_iff (k s : string) :
  str_in k s = true ↔ ∃ pre post, s = (pre ++ k ++ post)%string.
Proof.
  induction s as [|c s IH];
    [change (str_in k "") with (String.prefix k "" || false)
    |change (str_in k (String c s))
       with (String.prefix k (String c s) || str_in k s)];
    rewrite orb_true_iff, prefix_true_iff.
  - split.
    + intros [[post Hp]|?]; [|done]. by exists EmptyString, post.
    + intros (pre & post & Hp). left. exists post.
      destruct pre; [done | by rewrite append_cons in Hp].
  - rewrite IH. split.
    + intros [[post Hp]|(pre & post & Hp)].
      * by exists EmptyString, post.
      * exists (String c pre), post. rewrite append_cons. by rewrite Hp.
    + intros (pre & post & Hp). destruct pre as [|c' pre].
      * left. by exists post.
      * right. exists pre, post. rewrite append_cons in Hp. congruence.
Qed.

(** ** Quiz scorers *)

Lemma clamp_nearest_bound (v : Z) : Z.max 0 (Z.min 3 v) = nearest_bound v.
Proof.
  unfold nearest_bound.
  destruct (Z.ltb_spec v 0); [lia|]. destruct (Z.ltb_spec 3 v); lia.
Qed.

Lemma nearest_bound_range (v : Z) : 0 ≤ nearest_bound v ≤ 3.
Proof. rewrite <- clamp_nearest_bound. lia. Qed.

Lemma nearest_bound_idem (v : Z) :
  nearest_bound (nearest_bound v) = nearest_bound v.
Proof. rewrite <- !clamp_nearest_bound. lia. Qed.

(** The numeric loop body on a four-house dictionary. *)
Lemma backend_score_answer4 (g s h r : Z) (a : QuizAnswer) :
  Backend.score_answer (scores4 g s h r) a =
  Ok (scores4 (g + hit (nearest_bound (answer_value a) =? 0))
              (s + hit (nearest_bound (answer_value a) =? 1))
              (h + hit (nearest_bound (answer_value a) =? 2))
              (r + hit (nearest_bound (answer_value a) =? 3))).
Proof.
  unfold Backend.score_answer. rewrite clamp_nearest_bound.
  pose proof (nearest_bound_range (answer_value a)) as Hr.
  assert (nearest_bound (answer_value a) = 0 ∨
          nearest_bound (answer_value a) = 1 ∨
          nearest_bound (answer_value a) = 2 ∨
          nearest_bound (answer_value a) = 3) as [E|[E|[E|E]]] by lia;
    rewrite E; simpl; unfold scores4; by rewrite !Z.add_0_r.
Qed.

(** The keyword loop body on a four-house dictionary. *)
Lemma main_score_answer4 (lower : string → string) (g s h r : Z) (a : string) :
  Main.score_answer lower (scores4 g s h r) a =
  Ok (scores4
        (g + hit (any_in (lower a) ["brave"; "courage"; "daring"; "bold"]))
        (s + hit (any_in (lower a) ["ambition"; "cunning"; "power"; "lead"]))
        (h + hit (any_in (lower a) ["loyal"; "patience"; "kind"; "fair"]))
        (r + hit (any_in (lower a) ["wisdom"; "learn"; "wit"; "clever"]))).
Proof.
  unfold Main.score_answer.
  destruct (any_in (lower a) ["brave"; "courage"; "daring"; "bold"]);
  destruct (any_in (lower a) ["ambition"; "cunning"; "power"; "lead"]);
  destruct (any_in (lower a) ["loyal"; "patience"; "kind"; "fair"]);
  destruct (any_in (lower a) ["wisdom"; "learn"; "wit"; "clever"]);
  simpl; unfold scores4; by rewrite ?Z.add_0_r.
Qed.

(** Both loops run to their end and keep the four keys in place. *)
Lemma backend_for_each4 (answers : list QuizAnswer) (g s h r : Z) :
  ∃ g' s' h' r',
    for_each Backend.score_answer answers (scores4 g s h r) =
    Ok (scores4 g' s' h' r').
Proof.
  revert g s h r. induction answers as [|a l IH]; intros g s h r; simpl.
  - by exists g, s, h, r.
  - rewrite backend_score_answer4. simpl. apply IH.
Qed.

Lemma main_for_each4 (lower : string → string) (answers : list string)
    (g s h r : Z) :
  ∃ g' s' h' r',
    for_each (Main.score_answer lower) answers (scores4 g s h r) =
    Ok (scores4 g' s' h' r').
Proof.
  revert g s h r. induction answers as [|a l IH]; intros g s h r; simpl.
  - by exists g, s, h, r.
  - rewrite main_score_answer4. simpl. apply IH.
Qed.

Lemma backend_quiz_scores4 (answers : list QuizAnswer) :
  ∃ g s h r, Backend.quiz_scores answers = Ok (scores4 g s h r).
Proof. apply backend_for_each4. Qed.

Lemma main_quiz_scores4 (lower : string → string) (answers : list string) :
  ∃ g s h r, Main.quiz_scores lower answers = Ok (scores4 g s h r).
Proof. apply main_for_each4. Qed.

(** [max(scores.items(), key=lambda x: x[1])[0]] on a four-house
    dictionary is the first house with the greatest tally. *)
Lemma py_max_scores4 (g s h r : Z) :
  ∃ best, (py_max snd (scores4 g s h r) ≫= λ b, Ok (fst b)) = Ok best ∧
          first_max_house (scores4 g s h r) best.
Proof.
  unfold scores4, py_max.
  destruct (max_from_first_max snd
              [("Slytherin", s); ("Hufflepuff", h); ("Ravenclaw", r)]
              ("Gryffindor", g)) as (i & Hi & Hmax & Hbefore).
  set (b := max_from _ _ _) in *. exists (fst b). split; [done|].
  assert (Htally : ∀ (j : nat) x,
            [("Gryffindor", g); ("Slytherin", s); ("Hufflepuff", h);
             ("Ravenclaw", r)] !! j = Some x →
            HOUSES !! j = Some (fst x) ∧
            tally [("Gryffindor", g); ("Slytherin", s); ("Hufflepuff", h);
                   ("Ravenclaw", r)] (fst x) = snd x).
  { intros [|[|[|[|j]]]] x Hx; simpl in Hx; try done;
      injection Hx as <-; by split. }
  assert (Hback : ∀ (j : nat) k, HOUSES !! j = Some k →
            ∃ x, [("Gryffindor", g); ("Slytherin", s); ("Hufflepuff", h);
                  ("Ravenclaw", r)] !! j = Some x ∧ fst x = k).
  { intros [|[|[|[|j]]]] k Hk; simpl in Hk; try done;
      injection Hk as <-; by eexists. }
  destruct (Htally i b Hi) as [Hhouse Hb].
  exists i. split; [done|]. rewrite Hb. split.
  - intros j k Hk. destruct (Hback j k Hk) as (x & Hx & <-).
    destruct (Htally j x Hx) as [_ ->]. by apply (Hmax j).
  - intros j k Hk Hj. destruct (Hback j k Hk) as (x & Hx & <-).
    destruct (Htally j x Hx) as [_ ->]. by apply (Hbefore j).
Qed.

(** A house that strictly beats every other house is the one chosen. *)
Lemma first_max_house_strict (scores : pydict) (best w : string) :
  first_max_house scores best →
  w ∈ HOUSES →
  (∀ h, h ∈ HOUSES → h ≠ w → tally scores h < tally scores w) →
  best = w.
Proof.
  intros (i & Hi & Hmax & _) Hw Hstrict.
  destruct (decide (best = w)) as [|Hne]; [done|].
  apply list_elem_of_lookup in Hw as [j Hj].
  specialize (Hmax j w Hj).
  specialize (Hstrict best ltac:(apply list_elem_of_lookup; eauto) Hne). lia.
Qed.

(** Both scorers answer with a house for every answer sequence. *)
Lemma backend_assign_house_total (answers : list QuizAnswer) :
  ∃ scores house,
    Backend.quiz_scores answers = Ok scores ∧
    Backend.assign_house_from_quiz answers = Ok house ∧
    first_max_house scores house.
Proof.
  destruct (backend_quiz_scores4 answers) as (g & s & h & r & Hs).
  destruct (py_max_scores4 g s h r) as (best & Hbest & Hfirst).
  exists (scores4 g s h r), best. repeat split; try done.
  unfold Backend.assign_house_from_quiz. by rewrite Hs.
Qed.

Lemma main_map_quiz_to_house_total (lower : string → string)
    (answers : list string) :
  ∃ scores house,
    Main.quiz_scores lower answers = Ok scores ∧
    Main.map_quiz_to_house lower answers = Ok house ∧
    first_max_house scores house.
Proof.
  destruct (main_quiz_scores4 lower answers) as (g & s & h & r & Hs).
  destruct (py_max_scores4 g s h r) as (best & Hbest & Hfirst).
  exists (scores4 g s h r), best. repeat split; try done.
  unfold Main.map_quiz_to_house. by rewrite Hs.
Qed.

(** C6: for every answer sequence both scorers return a house of [HOUSES]
    whose tally no house exceeds and that every earlier house of the
    canonical order [Gryffindor, Slytherin, Hufflepuff, Ravenclaw] is
    strictly below: a house with the strictly highest tally is the one
    returned, and a tie goes to the first house in that order; numeric
    answers [0,1,2,3] give Gryffindor, and so does the empty answer sequence
    in either scorer. *)
Theorem scorer_first_max_wins :
  (∀ answers : list QuizAnswer, ∃ scores best,
      Backend.quiz_scores answers = Ok scores ∧
      Backend.assign_house_from_quiz answers = Ok best ∧
      first_max_house scores best ∧
      (∀ w, w ∈ HOUSES →
         (∀ h, h ∈ HOUSES → h ≠ w → tally scores h < tally scores w) →
         best = w)) ∧
  (∀ (lower : string → string) (answers : list string), ∃ scores best,
      Main.quiz_scores lower answers = Ok scores ∧
      Main.map_quiz_to_house lower answers = Ok best ∧
      first_max_house scores best ∧
      (∀ w, w ∈ HOUSES →
         (∀ h, h ∈ HOUSES → h ≠ w → tally scores h < tally scores w) →
         best = w)) ∧
  (∀ q0 q1 q2 q3 : Z,
      Backend.assign_house_from_quiz
        [mkQuizAnswer q0 0; mkQuizAnswer q1 1; mkQuizAnswer q2 2;
         mkQuizAnswer q3 3] = Ok "Gryffindor") ∧
  Backend.assign_house_from_quiz [] = Ok "Gryffindor" ∧
  (∀ lower : string → string,
      Main.map_quiz_to_house lower [] = Ok "Gryffindor").
Proof.
  split; [|split; [|repeat split; reflexivity]].
  - intros answers.
    destruct (backend_assign_house_total answers)
      as (scores & best & Hs & Hb & Hfirst).
    exists scores, best. repeat split; try done.
    intros w Hw Hstrict. by apply (first_max_house_strict scores).
  - intros lower answers.
    destruct (main_map_quiz_to_house_total lower answers)
      as (scores & best & Hs & Hb & Hfirst).
    exists scores, best. repeat split; try done.
    intros w Hw Hstrict. by apply (first_max_house_strict scores).
Qed.

(** The numeric loop body reads an answer only through its clamped value. *)
Lemma backend_score_answer_clamped (scores : pydict) (a : QuizAnswer) :
  Backend.score_answer scores a =
  Backend.score_answer scores
    (mkQuizAnswer (question_id a) (nearest_bound (answer_value a))).
Proof.
  unfold Backend.score_answer. simpl.
  by rewrite !clamp_nearest_bound, nearest_bound_idem.
Qed.

(** C7: in the numeric scorer an answer behaves exactly as the same answer
    with its value moved to the nearest bound of [0,3] (above 3 counts as 3,
    below 0 as 0), in the scores and in the house returned, and each answer
    adds one to the tally of the house at that clamped index of [HOUSES]
    and leaves the other tallies as they were. *)
Theorem numeric_scorer_clamps (pre post : list QuizAnswer) (a : QuizAnswer) :
  let i := nearest_bound (answer_value a) in
  let a' := mkQuizAnswer (question_id a) i in
  (i = if answer_value a <? 0 then 0
       else if 3 <? answer_value a then 3 else answer_value a) ∧
  Backend.quiz_scores (pre ++ a :: post) =
    Backend.quiz_scores (pre ++ a' :: post) ∧
  Backend.assign_house_from_quiz (pre ++ a :: post) =
    Backend.assign_house_from_quiz (pre ++ a' :: post) ∧
  ∃ before after h,
    Backend.quiz_scores pre = Ok before ∧
    Backend.quiz_scores (pre ++ [a]) = Ok after ∧
    HOUSES !! Z.to_nat i = Some h ∧
    ∀ (j : nat) h', HOUSES !! j = Some h' →
      dict_get h' after = Some (tally before h' + hit (bool_decide (h' = h))).
Proof.
  intros i a'.
  assert (Hsame : Backend.quiz_scores (pre ++ a :: post) =
                  Backend.quiz_scores (pre ++ a' :: post)).
  { unfold Backend.quiz_scores. rewrite !for_each_app.
    destruct (for_each _ pre _) as [d|e]; simpl; [|done].
    by rewrite (backend_score_answer_clamped d a). }
  split; [done|]. split; [done|]. split.
  { unfold Backend.assign_house_from_quiz. by rewrite Hsame. }
  destruct (backend_quiz_scores4 pre) as (g & s & h & r & Hpre).
  assert (Hafter : Backend.quiz_scores (pre ++ [a]) =
                   Ok (scores4 (g + hit (i =? 0)) (s + hit (i =? 1))
                               (h + hit (i =? 2)) (r + hit (i =? 3)))).
  { unfold Backend.quiz_scores in *. rewrite for_each_app, Hpre. simpl.
    by rewrite backend_score_answer4. }
  pose proof (nearest_bound_range (answer_value a)) as Hr. fold i in Hr.
  assert (i = 0 ∨ i = 1 ∨ i = 2 ∨ i = 3) as [E|[E|[E|E]]] by lia;
    rewrite E in *; eexists _, _, _;
    (split; [exact Hpre|]); (split; [exact Hafter|]); (split; [reflexivity|]);
    intros [|[|[|[|j]]]] h' Hh'; simpl in Hh'; try done;
    injection Hh' as <-; reflexivity.
Qed.

(** C8: in the keyword scorer one answer adds exactly one to the tally of
    every house one of whose keywords occurs in the lowercased answer, and
    nothing to the others, each house on its own: an answer with a
    Gryffindor keyword and a Ravenclaw keyword raises both tallies by one. *)
Theorem keyword_scorer_counts_each_house
    (lower : string → string) (pre : list string) (a : string) :
  ∃ before after,
    Main.quiz_scores lower pre = Ok before ∧
    Main.quiz_scores lower (pre ++ [a]) = Ok after ∧
    ∀ h keywords, (h, keywords) ∈ house_keywords →
      dict_get h after =
      Some (tally before h + hit (any_in (lower a) keywords)).
Proof.
  destruct (main_quiz_scores4 lower pre) as (g & s & h & r & Hpre).
  eexists _, _. split; [exact Hpre|]. split.
  - unfold Main.quiz_scores in *. rewrite for_each_app, Hpre. simpl.
    by rewrite main_score_answer4.
  - intros k kws Hk. apply list_elem_of_lookup in Hk as [j Hj].
    destruct j as [|[|[|[|j]]]]; simpl in Hj; try done;
      injection Hj as <- <-; reflexivity.
Qed.

(** ** Points ledger *)

Lemma admin_guard_run (env : Env) (key : option string) (s : Store) :
  Main.admin_guard env key s =
  if admin_key_accepted env key then (Ok tt, s)
  else (Raise (HTTPException 401), s).
Proof.
  unfold Main.admin_guard, admin_key_accepted.
  destruct (truthy (ADMIN_API_KEY env)) eqn:Hk; simpl.
  - rewrite Hk. simpl. case_decide; case_bool_decide; by run_m.
  - done.
Qed.

Lemma alter_const_insert (n : string) (v : Z) (h : gmap string Z) :
  is_Some (h !! n) → alter (λ _, v) n h = <[n := v]> h.
Proof.
  intros [t Ht]. apply map_eq. intros k.
  rewrite lookup_alter, lookup_insert. case_decide; [|done].
  subst k. by rewrite Ht.
Qed.

(** What one call of [adjust_house_points] leaves in [houses]: with either
    SQL function present the house gains [delta]; with neither, the upsert
    of the fallback has put the total back to 0 before [delta] is added. *)
Lemma main_adjust_house_points_run
    (env : Env) (n : string) (d : Z) (s : Store) :
  supabase_configured env = true → n ≠ "" →
  Main.adjust_house_points env (Some n) d s =
  (Ok tt,
   set_houses (λ h, if rpc_adjust_house_points env || rpc_ensure_house_exists env
                    then sql_adjust_house_points n d h
                    else <[n := d]> h) s).
Proof.
  intros Hc Hn. unfold Main.adjust_house_points, Main.ensure_house_exists,
    Main.require_supabase, truthy. rewrite Hc.
  destruct (decide (n = "")) as [|_]; [done|]. simpl.
  run_m. destruct (rpc_adjust_house_points env); simpl; [done|].
  destruct (rpc_ensure_house_exists env); simpl.
  - unfold set_houses; simpl. f_equal. f_equal.
    unfold sql_ensure_house_exists, sql_adjust_house_points.
    destruct (houses s !! n) as [t|] eqn:Ht; simpl.
    + rewrite Ht. simpl. apply alter_const_insert. by rewrite Ht.
    + rewrite lookup_insert_eq. simpl.
      rewrite alter_const_insert by (by rewrite lookup_insert_eq).
      by rewrite insert_insert_eq.
  - unfold set_houses; simpl. f_equal. f_equal.
    rewrite lookup_insert_eq. simpl.
    rewrite alter_const_insert by (by rewrite lookup_insert_eq).
    by rewrite insert_insert_eq.
Qed.

(** With neither SQL function the house ends at [delta], whatever it held. *)
Lemma main_adjust_house_points_no_rpc
    (env : Env) (n : string) (d : Z) (s : Store) :
  supabase_configured env = true → n ≠ "" →
  rpc_adjust_house_points env = false →
  rpc_ensure_house_exists env = false →
  ∃ s',
    Main.adjust_house_points env (Some n) d s = (Ok tt, s') ∧
    house_total s' n = d.
Proof.
  intros Hc Hn Ha He. rewrite main_adjust_house_points_run, Ha, He by done.
  eexists. split; [reflexivity|]. unfold house_total; simpl.
  by rewrite lookup_insert_eq.
Qed.

Lemma main_adjust_house_points_skip (env : Env) (house : option string)
    (d : Z) (s : Store) :
  truthy house = false → Main.adjust_house_points env house d s = (Ok tt, s).
Proof. intros H. unfold Main.adjust_house_points. by rewrite H. Qed.

Lemma alter_lookup_insert {A} (f : A → A) (k : string) (x : A)
    (m : gmap string A) :
  m !! k = Some x → alter f k m = <[k := f x]> m.
Proof.
  intros Hx. apply map_eq. intros j.
  rewrite lookup_alter, lookup_insert. case_decide; [|done].
  subst j. by rewrite Hx.
Qed.


(** [Main.admin_points] on a stored student, in every configuration of the
    SQL functions: one transaction is appended, the student's total becomes
    the old total plus [delta] and is the value answered; the [houses] table
    is left to [adjust_house_points]. *)
Lemma main_admin_points_run
    (env : Env) (payload : PointsRequest) (key : option string)
    (s : Store) (st : Student) :
  admin_key_accepted env key = true →
  supabase_configured env = true →
  students s !! student_id payload = Some st →
  ∃ s',
    Main.admin_points env payload key s =
      (Ok (total_points st + delta payload), s') ∧
    students s' =
      <[student_id payload := with_total st (total_points st + delta payload)]>
        (students s) ∧
    point_transactions s' =
      (point_transactions s ++
       [mkPointTransaction (student_id payload) (delta payload)
                           (reason payload)])%list ∧
    quiz_answers s' = quiz_answers s ∧
    houses s' =
      match assigned_house st with
      | Some n =>
          if decide (n = "") then houses s
          else if rpc_adjust_house_points env || rpc_ensure_house_exists env
               then sql_adjust_house_points n (delta payload) (houses s)
               else <[n := delta payload]> (houses s)
      | None => houses s
      end.
Proof.
  intros Hk Hc Hst. unfold Main.admin_points.
  unfold mbind at 1, M_bind at 1. rewrite admin_guard_run, Hk.
  unfold Main.require_supabase. rewrite Hc.
  unfold mbind at 1, M_bind at 1, mret at 1, M_ret at 1.
  unfold mbind at 1, M_bind at 1, students_select at 1. rewrite Hst. simpl.
  unfold mbind at 1, M_bind at 1, point_transactions_insert at 1, modify at 1.
  unfold mbind at 1, M_bind at 1, students_update_total_points at 1,
    modify at 1.
  unfold mbind at 1, M_bind at 1.
  set (s1 := set_students _ _).
  assert (Hs1 : students s1 =
                <[student_id payload :=
                    with_total st (total_points st + delta payload)]>
                  (students s)).
  { subst s1. simpl. by apply (alter_lookup_insert (λ r, with_total r _)). }
  destruct (assigned_house st) as [n|] eqn:Hh.
  - destruct (decide (n = "")) as [->|Hn].
    + rewrite main_adjust_house_points_skip by done.
      exists s1. by repeat split.
    + rewrite main_adjust_house_points_run by done.
      eexists. split; [reflexivity|]. by repeat split.
  - rewrite main_adjust_house_points_skip by done.
    exists s1. by repeat split.
Qed.

(** [Main.admin_points] on an id without a row: 404, nothing written. *)
Lemma main_admin_points_not_found
    (env : Env) (payload : PointsRequest) (key : option string) (s : Store) :
  admin_key_accepted env key = true →
  supabase_configured env = true →
  students s !! student_id payload = None →
  Main.admin_points env payload key s = (Raise (HTTPException 404), s).
Proof.
  intros Hk Hc Hst. unfold Main.admin_points.
  unfold mbind at 1, M_bind at 1. rewrite admin_guard_run, Hk.
  unfold Main.require_supabase. rewrite Hc.
  run_m. by rewrite Hst.
Qed.

(** [Backend.admin_points] on an id without a row: nothing is written, and
    the answer is 400 whichever way [.single()] reports the empty result,
    because the [except Exception] clause catches the 404 as well. *)
Lemma backend_admin_points_not_found
    (env : Env) (change : PointsRequest) (s : Store) :
  supabase_configured env = true →
  students s !! student_id change = None →
  Backend.admin_points env change s = (Raise (HTTPException 400), s).
Proof.
  intros Hc Hst. unfold Backend.admin_points, Backend.ensure_client,
    Backend.except_400. rewrite Hc.
  run_m. rewrite Hst. by destruct (single_empty_raises env).
Qed.

(** Ledger conservation in [src/main.py], in every configuration of the SQL
    functions: after the requests with deltas d1..dn the stored total is the
    old total plus d1+...+dn, and the log has gained exactly those n
    transactions, in the order of the requests. *)
Lemma main_apply_changes_conservation
    (env : Env) (key : option string) (id : string)
    (changes : list (Z * string)) (s : Store) (st : Student) :
  admin_key_accepted env key = true →
  supabase_configured env = true →
  students s !! id = Some st →
  ∃ s',
    apply_changes env key id changes s = (Ok tt, s') ∧
    total_points <$> students s' !! id =
      Some (total_points st + foldr Z.add 0 (map fst changes)) ∧
    point_transactions s' =
      (point_transactions s ++
       map (λ c, mkPointTransaction id (fst c) (snd c)) changes)%list ∧
    transactions_of id s' =
      (transactions_of id s ++
       map (λ c, mkPointTransaction id (fst c) (snd c)) changes)%list.
Proof.
  intros Hk Hc. revert s st.
  induction changes as [|[d why] rest IH]; intros s st Hst; simpl.
  - exists s. rewrite Hst, Z.add_0_r, !app_nil_r. by repeat split.
  - destruct (main_admin_points_run env (mkPointsRequest id d why) key s st
                Hk Hc Hst) as (s1 & Hrun & Hstu & Htx & _ & _).
    simpl in *.
    destruct (IH s1 (with_total st (total_points st + d)))
      as (s' & Hrest & Htotal & Hlog & Hof).
    { rewrite Hstu. apply lookup_insert_eq. }
    exists s'. split; [|split; [|split]].
    + unfold mbind, M_bind. by rewrite Hrun.
    + rewrite Htotal. simpl. f_equal. lia.
    + rewrite Hlog, Htx, <- app_assoc. done.
    + rewrite Hof. unfold transactions_of. rewrite Htx, filter_app.
      rewrite <- app_assoc. f_equal.
      rewrite filter_cons_True by done. by rewrite filter_nil.
Qed.

(** Started on a student with total 0 and no transaction, [n] requests
    leave the sum of their deltas as the total and [n] transactions. *)
Lemma main_apply_changes_from_zero
    (env : Env) (key : option string) (id : string)
    (changes : list (Z * string)) (s : Store) (st : Student) :
  admin_key_accepted env key = true →
  supabase_configured env = true →
  students s !! id = Some st →
  total_points st = 0 →
  transactions_of id s = [] →
  ∃ s',
    apply_changes env key id changes s = (Ok tt, s') ∧
    total_points <$> students s' !! id =
      Some (foldr Z.add 0 (map fst changes)) ∧
    length (transactions_of id s') = length changes.
Proof.
  intros Hk Hc Hst Hzero Hlog.
  destruct (main_apply_changes_conservation env key id changes s st Hk Hc Hst)
    as (s' & Hrun & Htotal & _ & Hof).
  exists s'. split; [exact Hrun|]. split.
  - by rewrite Htotal, Hzero.
  - rewrite Hof, Hlog. simpl. apply List.length_map.
Qed.

(** C1: on the stored student "u1" (house Gryffindor, total 7) with no SQL
    function installed, [POST /admin/points] with delta 5 appends the one
    transaction, stores and answers the total 12, but leaves the Gryffindor
    aggregate at 5 where the claim gives 50 + 5: the upsert inside the
    fallback of [adjust_house_points] has reset it to 0 first. *)
Theorem admin_points_fallback_resets_house :
  ∃ s',
    Main.admin_points env_no_rpc (mkPointsRequest "u1" 5 "quiz bonus") None
      store0 = (Ok 12, s') ∧
    point_transactions s' = [mkPointTransaction "u1" 5 "quiz bonus"] ∧
    total_points <$> students s' !! "u1" = Some 12 ∧
    house_total store0 "Gryffindor" = 50 ∧
    house_total s' "Gryffindor" = 5.
Proof.
  destruct (main_admin_points_run env_no_rpc
              (mkPointsRequest "u1" 5 "quiz bonus") None store0 harry)
    as (s' & Hrun & Hstu & Htx & _ & Hh); try reflexivity.
  exists s'. split; [exact Hrun|]. split; [exact Htx|]. split.
  - rewrite Hstu. reflexivity.
  - split; [reflexivity|]. unfold house_total. rewrite Hh. reflexivity.
Qed.

(** C2: in [src/backend/main.py] a request for the id "nobody", which has no
    row, writes nothing but is answered with status 400, not 404: the 404
    raised inside the [try] is caught by its own [except Exception]. *)
Theorem backend_admin_points_unknown_student_400 :
  students store0 !! "nobody" = None ∧
  Backend.admin_points env_all_rpc (mkPointsRequest "nobody" 5 "quiz bonus")
    store0 = (Raise (HTTPException 400), store0) ∧
  Main.admin_points env_all_rpc (mkPointsRequest "nobody" 5 "quiz bonus") None
    store0 = (Raise (HTTPException 404), store0).
Proof.
  split; [reflexivity|]. split.
  - by apply backend_admin_points_not_found.
  - by apply main_admin_points_not_found.
Qed.

(** ** House registry *)

(** The bulk upsert writes 0 into the four house rows, whatever they held,
    and touches no other row. *)
Lemma main_ensure_houses_seeded_run (env : Env) (s : Store) :
  supabase_configured env = true →
  ∃ s',
    Main.ensure_houses_seeded env s = (Ok tt, s') ∧
    students s' = students s ∧
    point_transactions s' = point_transactions s ∧
    quiz_answers s' = quiz_answers s ∧
    (∀ h, h ∈ HOUSES → houses s' !! h = Some 0) ∧
    (∀ h, h ∉ HOUSES → houses s' !! h = houses s !! h).
Proof.
  intros Hc. unfold Main.ensure_houses_seeded, Main.require_supabase.
  rewrite Hc. run_m. eexists. split; [reflexivity|]. simpl.
  repeat split; intros h Hh; unfold HOUSES in Hh.
  - rewrite !elem_of_cons, elem_of_nil in Hh.
    destruct Hh as [->|[->|[->|[->|[]]]]]; by simplify_map_eq.
  - rewrite !not_elem_of_cons in Hh. destruct Hh as (?&?&?&?&_).
    by rewrite !lookup_insert_ne.
Qed.

Lemma main_ensure_house_exists_run (env : Env) (n : string) (s : Store) :
  supabase_configured env = true →
  Main.ensure_house_exists env n s =
  (Ok tt,
   set_houses (if rpc_ensure_house_exists env
               then sql_ensure_house_exists n else insert n 0) s).
Proof.
  intros Hc. unfold Main.ensure_house_exists, Main.require_supabase.
  rewrite Hc. run_m. by destruct (rpc_ensure_house_exists env).
Qed.

(** Through the SQL function, [ensure_house_exists] keeps an existing total
    and creates a missing house with total 0. *)
Lemma main_ensure_house_exists_rpc (env : Env) (n : string) (s : Store) :
  supabase_configured env = true →
  rpc_ensure_house_exists env = true →
  ∃ s',
    Main.ensure_house_exists env n s = (Ok tt, s') ∧
    houses s' !! n = Some (house_total s n) ∧
    (∀ k, k ≠ n → houses s' !! k = houses s !! k).
Proof.
  intros Hc Hr. rewrite main_ensure_house_exists_run, Hr by done.
  eexists. split; [reflexivity|]. simpl.
  unfold sql_ensure_house_exists, house_total.
  destruct (houses s !! n) as [t|] eqn:Ht; simpl.
  - by split.
  - split; [apply lookup_insert_eq|]. intros k Hk. by apply lookup_insert_ne.
Qed.

(** Without it, the fallback upsert writes total 0 over the row. *)
Lemma main_ensure_house_exists_fallback (env : Env) (n : string) (s : Store) :
  supabase_configured env = true →
  rpc_ensure_house_exists env = false →
  ∃ s',
    Main.ensure_house_exists env n s = (Ok tt, s') ∧
    houses s' !! n = Some 0.
Proof.
  intros Hc Hr. rewrite main_ensure_house_exists_run, Hr by done.
  eexists. split; [reflexivity|]. apply lookup_insert_eq.
Qed.

(** A missing house is created with total 0 on either path, and a second
    call changes nothing more. *)
Lemma main_ensure_house_exists_absent (env : Env) (n : string) (s : Store) :
  supabase_configured env = true →
  houses s !! n = None →
  ∃ s',
    Main.ensure_house_exists env n s = (Ok tt, s') ∧
    houses s' = <[n := 0]> (houses s).
Proof.
  intros Hc Hn. rewrite main_ensure_house_exists_run by done.
  eexists. split; [reflexivity|]. simpl.
  destruct (rpc_ensure_house_exists env); [|done].
  unfold sql_ensure_house_exists. by rewrite Hn.
Qed.

Lemma main_ensure_house_exists_idempotent (env : Env) (n : string) (s : Store) :
  supabase_configured env = true →
  (Main.ensure_house_exists env n;; Main.ensure_house_exists env n) s =
  Main.ensure_house_exists env n s.
Proof.
  intros Hc. unfold mbind, M_bind.
  rewrite !main_ensure_house_exists_run by done.
  unfold set_houses; simpl. f_equal. f_equal.
  destruct (rpc_ensure_house_exists env).
  - unfold sql_ensure_house_exists.
    destruct (houses s !! n) as [t|] eqn:Ht; [by rewrite Ht|].
    by rewrite lookup_insert_eq.
  - apply insert_insert_eq.
Qed.

(** C3: on a store whose Gryffindor row holds 50, the bulk seeding of
    signup and bootstrap leaves that row at 0, and so does
    [ensure_house_exists] when the SQL function is missing and the upsert
    fallback runs: the existing total is not kept. *)
Theorem seeding_resets_existing_total :
  houses store0 !! "Gryffindor" = Some 50 ∧
  (∃ s', Main.ensure_houses_seeded env_all_rpc store0 = (Ok tt, s') ∧
         houses s' !! "Gryffindor" = Some 0) ∧
  (∃ s', Main.ensure_house_exists env_no_rpc "Gryffindor" store0 = (Ok tt, s') ∧
         houses s' !! "Gryffindor" = Some 0).
Proof.
  split; [reflexivity|]. split.
  - destruct (main_ensure_houses_seeded_run env_all_rpc store0 eq_refl)
      as (s' & Hrun & _ & _ & _ & Hin & _).
    exists s'. split; [exact Hrun|]. apply Hin. unfold HOUSES. set_solver.
  - destruct (main_ensure_house_exists_fallback env_no_rpc "Gryffindor" store0
                eq_refl eq_refl) as (s' & Hrun & Hz).
    by exists s'.
Qed.

(** ** Signup *)

(** [signup_user_id] ends with an id exactly on the answers [settles_on]
    lists, and with 400 on all others. *)
Lemma signup_user_id_settles (auth : Auth) (payload : SignupRequest)
    (id : string) :
  Main.signup_user_id auth payload = Ok id ↔ settles_on auth payload id.
Proof.
  unfold Main.signup_user_id, settles_on. cbv zeta.
  destruct (sign_up auth _ _) as [[u|]|e]; simpl.
  - split.
    + intros [= ->]. by left.
    + intros [[= ->]|[[? _]|[H _]]]; [done|done|]. by destruct (H u).
  - destruct (get_user_by_email auth _) as [[v|]|e']; simpl.
    + split.
      * intros [= ->]. right; by left.
      * intros [?|[[_ [= ->]]|(_ & H & _)]]; [done|done|].
        by destruct (H eq_refl v).
    + destruct (create_user auth _ _) as [[w|]|e'']; simpl; split;
        try (intros [= ->]; right; right; by repeat split);
        try done;
        intros [?|[[_ ?]|(_ & _ & ?)]]; congruence.
    + destruct (create_user auth _ _) as [[w|]|e'']; simpl; split;
        try (intros [= ->]; right; right; by repeat split);
        try done;
        intros [?|[[_ ?]|(_ & _ & ?)]]; congruence.
  - destruct (create_user auth _ _) as [[w|]|e'']; simpl; split;
      try (intros [= ->]; right; right; by repeat split);
      try done;
      intros [?|[[? _]|(_ & _ & ?)]]; congruence.
Qed.

Lemma signup_user_id_refuses (auth : Auth) (payload : SignupRequest) :
  (∀ id, ¬ settles_on auth payload id) →
  Main.signup_user_id auth payload = Raise (HTTPException 400).
Proof.
  intros Hno.
  assert (Hcases : (∃ id, Main.signup_user_id auth payload = Ok id) ∨
                   Main.signup_user_id auth payload = Raise (HTTPException 400)).
  { unfold Main.signup_user_id.
    destruct (_ ≫= _) as [id|e]; [left; by exists id|].
    destruct (_ ≫= _) as [id|e']; [left; by exists id | by right]. }
  destruct Hcases as [[id Hid]|]; [|done].
  apply signup_user_id_settles in Hid. by destruct (Hno id).
Qed.

(** C4 (as stated, refuted): the email is registered with the identity
    service as "u1" and "u1" has a student row, yet a signup for it is
    answered 400 and nothing is overwritten: [sign_up] raises on the
    registered email, the [except] branch goes to [create_user], which
    raises too, and the lookup by email is never made. *)
Lemma signup_registered_email_refused :
  get_user_by_email auth_refusing (req_email harry_again) = Ok (Some "u1") ∧
  students store0 !! "u1" = Some harry ∧
  Main.signup env_all_rpc auth_refusing harry_again store0 =
    (Raise (HTTPException 400), store0).
Proof. repeat split. Qed.

(** C4 (amended): for a student row that already exists, when the identity
    service settles the signup on that student's id ([sign_up] returns the
    user, or returns none and the lookup by email finds it, or neither
    gives a user and [create_user] returns it), [POST /auth/signup] answers
    that id after writing 0 into the four house rows and replacing the row
    by the new profile, with [assigned_house] unset and [total_points] 0,
    whatever house and total the row held; when the service settles on no
    id, the request is answered 400 and nothing is written. *)
Theorem signup_existing_student
    (env : Env) (auth : Auth) (payload : SignupRequest) (s : Store) :
  supabase_configured env = true →
  (∀ user_id old,
     students s !! user_id = Some old →
     settles_on auth payload user_id →
     ∃ s',
       Main.signup env auth payload s = (Ok user_id, s') ∧
       students s' !! user_id =
         Some (mkStudent (req_name payload) (req_email payload)
                 (req_phone payload) (req_instagram payload)
                 (req_linkedin payload) None 0) ∧
       (∀ id, id ≠ user_id → students s' !! id = students s !! id) ∧
       (∀ h, h ∈ HOUSES → houses s' !! h = Some 0) ∧
       (∀ h, h ∉ HOUSES → houses s' !! h = houses s !! h) ∧
       point_transactions s' = point_transactions s ∧
       quiz_answers s' = quiz_answers s) ∧
  ((∀ id, ¬ settles_on auth payload id) →
   Main.signup env auth payload s = (Raise (HTTPException 400), s)).
Proof.
  intros Hc. split.
  - intros user_id old _ Hid. apply signup_user_id_settles in Hid.
    destruct (main_ensure_houses_seeded_run env s Hc)
      as (s1 & Hseed & Hstu & Htx & Hqa & Hin & Hout).
    unfold Main.signup.
    unfold mbind at 1, M_bind at 1, Main.require_supabase at 1. rewrite Hc.
    unfold mret at 1, M_ret at 1.
    unfold mbind at 1, M_bind at 1, lift at 1. rewrite Hid.
    unfold mbind at 1, M_bind at 1. rewrite Hseed.
    run_m. eexists. split; [reflexivity|]. simpl.
    rewrite Hstu. split; [apply lookup_insert_eq|].
    split; [intros id Hne; by apply lookup_insert_ne|]. by repeat split.
  - intros Hno. apply signup_user_id_refuses in Hno.
    unfold Main.signup, Main.require_supabase. rewrite Hc. run_m.
    by rewrite Hno.
Qed.

Lemma signup_existing_student_witness :
  ∃ s',
    Main.signup env_no_rpc auth_existing harry_again store0 = (Ok "u1", s') ∧
    students s' !! "u1" =
      Some (mkStudent "Harry P" "harry@example.org" None None None None 0) ∧
    houses s' !! "Gryffindor" = Some 0.
Proof.
  destruct (signup_existing_student env_no_rpc auth_existing harry_again
              store0 eq_refl) as [Hover _].
  destruct (Hover "u1" harry eq_refl)
    as (s' & Hrun & Hrow & _ & Hin & _).
  { right; left. by split. }
  exists s'. split; [exact Hrun|]. split; [exact Hrow|].
  apply Hin. unfold HOUSES. set_solver.
Defined.

(** ** Quiz submission *)

(** [Main.submit_quiz] never looks the student up: it answers the scored
    house, appends the answers and alters whatever row has the id. *)
Lemma main_submit_quiz_run (lower : string → string) (env : Env)
    (user_id : string) (answers : list string) (s : Store) :
  supabase_configured env = true →
  ∃ house s',
    Main.map_quiz_to_house lower answers = Ok house ∧
    Main.submit_quiz lower env user_id answers s = (Ok house, s') ∧
    quiz_answers s' =
      (quiz_answers s ++ [mkQuizAnswersRow user_id (TextAnswers answers)])%list ∧
    students s' = alter (λ r, with_house r (Some house)) user_id (students s) ∧
    point_transactions s' = point_transactions s.
Proof.
  intros Hc.
  destruct (main_map_quiz_to_house_total lower answers)
    as (scores & house & _ & Hhouse & _).
  exists house. unfold Main.submit_quiz, Main.ensure_house_exists,
    Main.require_supabase. rewrite Hc, Hhouse. run_m.
  destruct (rpc_ensure_house_exists env); simpl;
    (eexists; split; [done|]; split; [reflexivity|]; by repeat split).
Qed.

(** [Backend.quiz_submit] does not look the student up either; its last
    call is the [rpc], so without the SQL function the request ends in 400
    after the two writes. *)
Lemma backend_quiz_submit_run (env : Env) (user_id : string)
    (answers : list QuizAnswer) (s : Store) :
  supabase_configured env = true →
  ∃ house s',
    Backend.assign_house_from_quiz answers = Ok house ∧
    Backend.quiz_submit env user_id answers s =
      (if rpc_ensure_house_exists env then Ok house
       else Raise (HTTPException 400), s') ∧
    quiz_answers s' =
      (quiz_answers s ++
       [mkQuizAnswersRow user_id (DumpedAnswers answers)])%list ∧
    students s' = alter (λ r, with_house r (Some house)) user_id (students s) ∧
    point_transactions s' = point_transactions s.
Proof.
  intros Hc.
  destruct (backend_assign_house_total answers)
    as (scores & house & _ & Hhouse & _).
  exists house. unfold Backend.quiz_submit, Backend.ensure_client,
    Backend.except_400. rewrite Hc, Hhouse. run_m.
  destruct (rpc_ensure_house_exists env); simpl;
    (eexists; split; [done|]; split; [reflexivity|]; by repeat split).
Qed.



(** C10: scoring is a function of the answers alone.  For every answer
    sequence each scorer returns a house and never raises; two calls in a
    row inside a request give that same house twice and leave the store as
    it was; and whatever the deployment, the store and the user id, a quiz
    submission that succeeds answers that house. *)
Theorem scorer_deterministic :
  (∀ answers : list QuizAnswer, ∃ house,
     Backend.assign_house_from_quiz answers = Ok house ∧
     (∀ s : Store,
        (r1 ← lift (Backend.assign_house_from_quiz answers);
         r2 ← lift (Backend.assign_house_from_quiz answers);
         mret (r1, r2)) s = (Ok (house, house), s)) ∧
     (∀ env user_id s r s',
        Backend.quiz_submit env user_id answers s = (Ok r, s') → r = house)) ∧
  (∀ (lower : string → string) (answers : list string), ∃ house,
     Main.map_quiz_to_house lower answers = Ok house ∧
     (∀ s : Store,
        (r1 ← lift (Main.map_quiz_to_house lower answers);
         r2 ← lift (Main.map_quiz_to_house lower answers);
         mret (r1, r2)) s = (Ok (house, house), s)) ∧
     (∀ env user_id s r s',
        Main.submit_quiz lower env user_id answers s = (Ok r, s') →
        r = house)).
Proof.
  split.
  - intros answers.
    destruct (backend_assign_house_total answers)
      as (scores & house & _ & Hhouse & _).
    exists house. split; [done|]. split.
    + intros s. run_m. by rewrite Hhouse.
    + intros env user_id s r s' Hrun.
      destruct (supabase_configured env) eqn:Hc.
      * destruct (backend_quiz_submit_run env user_id answers s Hc)
          as (house' & s1 & Hh & Hrun' & _).
        rewrite Hrun in Hrun'.
        destruct (rpc_ensure_house_exists env); [|done].
        congruence.
      * unfold Backend.quiz_submit, Backend.ensure_client in Hrun.
        rewrite Hc in Hrun. by run_m.
  - intros lower answers.
    destruct (main_map_quiz_to_house_total lower answers)
      as (scores & house & _ & Hhouse & _).
    exists house. split; [done|]. split.
    + intros s. run_m. by rewrite Hhouse.
    + intros env user_id s r s' Hrun.
      destruct (supabase_configured env) eqn:Hc.
      * destruct (main_submit_quiz_run lower env user_id answers s Hc)
          as (house' & s1 & Hh & Hrun' & _).
        congruence.
      * unfold Main.submit_quiz, Main.require_supabase in Hrun.
        rewrite Hc in Hrun. by run_m.
Qed.

(** ** Concurrent adjustments of one house *)

(** A request left alone makes the calls of [Main.adjust_house_points] and
    ends in the store that function returns. *)
Lemma run_alone_adjust_house_points
    (env : Env) (n : string) (d : Z) (s : Store) :
  supabase_configured env = true → n ≠ "" →
  ∃ s',
    Main.adjust_house_points env (Some n) d s = (Ok tt, s') ∧
    Concurrent.run_alone env n d 5 Concurrent.CallAdjustRpc s =
      (Concurrent.Returned, s').
Proof.
  intros Hc Hn. rewrite main_adjust_house_points_run by done.
  eexists. split; [reflexivity|]. simpl.
  destruct (rpc_adjust_house_points env); simpl; [done|].
  destruct (rpc_ensure_house_exists env); simpl;
    unfold set_houses; simpl; f_equal; f_equal.
  - unfold sql_ensure_house_exists, sql_adjust_house_points.
    destruct (houses s !! n) as [t|] eqn:Ht; simpl.
    + rewrite Ht. simpl. apply alter_const_insert. by rewrite Ht.
    + rewrite lookup_insert_eq. simpl.
      rewrite alter_const_insert by (by rewrite lookup_insert_eq).
      by rewrite insert_insert_eq.
  - rewrite lookup_insert_eq. simpl.
    rewrite alter_const_insert by (by rewrite lookup_insert_eq).
    by rewrite insert_insert_eq.
Qed.

Lemma run_schedule_reachable (env : Env) (house : string) (d : Z)
    (sched : list nat) (c : Concurrent.config) :
  rtc (Concurrent.step env house d) c (Concurrent.run_schedule env house d sched c).
Proof.
  revert c. induction sched as [|i sched IH]; intros [ts s]; simpl.
  - apply rtc_refl.
  - destruct (ts !! i) as [p|] eqn:Hp; [|apply IH].
    destruct (Concurrent.thread_step env house d p s) as [[p' s']|] eqn:Hstep;
      [|apply IH].
    eapply rtc_l; [|apply IH]. by econstructor.
Qed.

Lemma returned_count_spawn (n : nat) :
  Concurrent.returned_count (Concurrent.spawn n) = 0%nat.
Proof. induction n; simpl; [done|]. apply IHn. Qed.

Lemma returned_count_all (ts : list Concurrent.pc) :
  Concurrent.all_returned ts → Concurrent.returned_count ts = length ts.
Proof.
  unfold Concurrent.all_returned.
  intros Hall. induction ts as [|p ts IH]; simpl; [done|].
  apply Forall_cons in Hall as [-> Hall]. by rewrite IH.
Qed.

Lemma returned_count_insert (ts : list Concurrent.pc) (i : nat) :
  ts !! i = Some Concurrent.CallAdjustRpc →
  Concurrent.returned_count (<[i := Concurrent.Returned]> ts) =
  S (Concurrent.returned_count ts).
Proof.
  revert i. induction ts as [|p ts IH]; intros [|i] Hi; simpl in *; try done.
  - by injection Hi as ->.
  - rewrite (IH i Hi). by destruct p.
Qed.

Section rpc_available.
Variables (env : Env) (house : string) (delta : Z) (n : nat) (s0 : Store).
Hypothesis Hrpc : rpc_adjust_house_points env = true.

Lemma rpc_invariant_init :
  Concurrent.rpc_invariant house delta n s0 (Concurrent.spawn n, s0).
Proof.
  unfold Concurrent.rpc_invariant; simpl. rewrite returned_count_spawn.
  split; [apply length_replicate|]. split; [|lia].
  apply Forall_replicate. by left.
Qed.

Lemma rpc_invariant_step (c c' : Concurrent.config) :
  Concurrent.rpc_invariant house delta n s0 c →
  Concurrent.step env house delta c c' →
  Concurrent.rpc_invariant house delta n s0 c'.
Proof.
  intros (Hlen & Hpcs & Htotal) Hstep.
  destruct Hstep as [i p p' ts s s' Hi Hp]. simpl in *.
  assert (p = Concurrent.CallAdjustRpc) as ->.
  { rewrite Forall_lookup in Hpcs. destruct (Hpcs i p Hi) as [->| ->]; [done|].
    discriminate. }
  simpl in Hp. rewrite Hrpc in Hp. injection Hp as <- <-.
  unfold Concurrent.rpc_invariant; simpl.
  split; [by rewrite length_insert|]. split.
  - apply Forall_insert; [done | by right].
  - rewrite returned_count_insert by done.
    unfold house_total in *; simpl. unfold sql_adjust_house_points.
    rewrite lookup_insert_eq. simpl. lia.
Qed.

Lemma rpc_invariant_reachable (c : Concurrent.config) :
  rtc (Concurrent.step env house delta) (Concurrent.spawn n, s0) c →
  Concurrent.rpc_invariant house delta n s0 c.
Proof.
  revert c. apply (rtc_ind_r (Concurrent.rpc_invariant house delta n s0)).
  - apply rpc_invariant_init.
  - intros c c' _ Hstep Hinv. by eapply rpc_invariant_step.
Qed.
End rpc_available.

(** With the SQL function, requests that have not returned can always move,
    so the runs the next theorem speaks of exist for every [n]. *)
Lemma rpc_run_to_completion (env : Env) (house : string) (delta : Z)
    (n : nat) (s0 : Store) :
  rpc_adjust_house_points env = true →
  ∃ ts s,
    rtc (Concurrent.step env house delta) (Concurrent.spawn n, s0) (ts, s) ∧
    Concurrent.all_returned ts.
Proof.
  intros Hrpc.
  assert (Hgen : ∀ (k : nat) (fin : list Concurrent.pc) (s : Store),
            Concurrent.all_returned fin →
            ∃ s', rtc (Concurrent.step env house delta)
                      ((fin ++ Concurrent.spawn k)%list, s)
                      ((fin ++ replicate k Concurrent.Returned)%list, s')).
  { induction k as [|k IH]; intros fin s Hfin.
    - exists s. apply rtc_refl.
    - destruct (IH (fin ++ [Concurrent.Returned])%list
                  (set_houses (sql_adjust_house_points house delta) s))
        as (s' & Hrun).
      { apply Forall_app. split; [done|]. by repeat constructor. }
      exists s'. simpl. rewrite <- !app_assoc in Hrun. simpl in Hrun.
      eapply rtc_l; [|exact Hrun].
      replace (fin ++ Concurrent.Returned :: Concurrent.spawn k)%list
        with (<[length fin := Concurrent.Returned]>
                (fin ++ Concurrent.CallAdjustRpc :: Concurrent.spawn k)%list).
      + eapply Concurrent.step_request.
        * by apply list_lookup_middle.
        * simpl. by rewrite Hrpc.
      + rewrite insert_app_r_alt by lia. by rewrite Nat.sub_diag. }
  destruct (Hgen n [] s0) as (s' & Hrun); [by constructor|].
  exists (replicate n Concurrent.Returned), s'. split; [exact Hrun|].
  by apply Forall_replicate.
Qed.

(** C5 (amended): when the SQL function [adjust_house_points] exists, each
    request adds its [delta] in one database call, and every interleaving of
    [n] concurrent [adjust(house, delta)] requests that runs them all to
    their return leaves the house at its initial total plus [n] times
    [delta]: [n] for [+1] from 0. *)
Theorem rpc_adjust_no_lost_update
    (env : Env) (house : string) (delta : Z) (n : nat) (s0 : Store)
    (ts : list Concurrent.pc) (s : Store) :
  rpc_adjust_house_points env = true →
  rtc (Concurrent.step env house delta) (Concurrent.spawn n, s0) (ts, s) →
  Concurrent.all_returned ts →
  house_total s house = house_total s0 house + Z.of_nat n * delta.
Proof.
  intros Hrpc Hrun Hall.
  destruct (rpc_invariant_reachable env house delta n s0 Hrpc (ts, s) Hrun)
    as (Hlen & _ & Htotal). simpl in *.
  by rewrite Htotal, returned_count_all, Hlen.
Qed.

Lemma rpc_adjust_no_lost_update_witness :
  ∃ s,
    rtc (Concurrent.step env_all_rpc "Gryffindor" 1)
        (Concurrent.spawn 3, store_zero)
        ([Concurrent.Returned; Concurrent.Returned; Concurrent.Returned], s) ∧
    house_total s "Gryffindor" = 3.
Proof.
  pose proof (run_schedule_reachable env_all_rpc "Gryffindor" 1 [2; 0; 1]%nat
                (Concurrent.spawn 3, store_zero)) as Hrun.
  set (c := Concurrent.run_schedule _ _ _ _ _) in Hrun.
  exists c.2. split; [exact Hrun|].
  apply (rpc_adjust_no_lost_update env_all_rpc "Gryffindor" 1 3 store_zero
           [Concurrent.Returned; Concurrent.Returned; Concurrent.Returned] c.2
           eq_refl Hrun).
  repeat constructor.
Defined.

(** C5 (as stated, refuted): with the SQL function [adjust_house_points]
    missing, two concurrent [adjust("Gryffindor", +1)] requests on a total
    of 0 can both read 0 on line 96 before either writes on line 100; both
    return and the total is 1, not 2.  The same two requests one after the
    other leave 2. *)
Lemma fallback_loses_update :
  house_total store_zero "Gryffindor" = 0 ∧
  (∃ s,
     rtc (Concurrent.step env_ensure_rpc_only "Gryffindor" 1)
         (Concurrent.spawn 2, store_zero)
         ([Concurrent.Returned; Concurrent.Returned], s) ∧
     house_total s "Gryffindor" = 1) ∧
  (∃ s,
     rtc (Concurrent.step env_ensure_rpc_only "Gryffindor" 1)
         (Concurrent.spawn 2, store_zero)
         ([Concurrent.Returned; Concurrent.Returned], s) ∧
     house_total s "Gryffindor" = 2).
Proof.
  split; [reflexivity|]. split.
  - pose proof (run_schedule_reachable env_ensure_rpc_only "Gryffindor" 1
                  [0; 0; 0; 1; 1; 1; 0; 1]%nat
                  (Concurrent.spawn 2, store_zero)) as Hrun.
    set (c := Concurrent.run_schedule _ _ _ _ _) in Hrun.
    exists c.2. split; [exact Hrun | reflexivity].
  - pose proof (run_schedule_reachable env_ensure_rpc_only "Gryffindor" 1
                  [0; 0; 0; 0; 1; 1; 1; 1]%nat
                  (Concurrent.spawn 2, store_zero)) as Hrun.
    set (c := Concurrent.run_schedule _ _ _ _ _) in Hrun.
    exists c.2. split; [exact Hrun | reflexivity].
Qed.

(** ** The other paths of the ledger, for reference *)

(** With either SQL function present, [Main.admin_points] raises the
    aggregate of the student's house by exactly [delta]. *)
Lemma main_admin_points_house_gain
    (env : Env) (payload : PointsRequest) (key : option string)
    (s : Store) (st : Student) (n : string) :
  admin_key_accepted env key = true →
  supabase_configured env = true →
  students s !! student_id payload = Some st →
  assigned_house st = Some n → n ≠ "" →
  rpc_adjust_house_points env || rpc_ensure_house_exists env = true →
  ∃ s',
    Main.admin_points env payload key s =
      (Ok (total_points st + delta payload), s') ∧
    house_total s' n = house_total s n + delta payload ∧
    (∀ k, k ≠ n → houses s' !! k = houses s !! k).
Proof.
  intros Hk Hc Hst Hh Hn Hrpc.
  destruct (main_admin_points_run env payload key s st Hk Hc Hst)
    as (s' & Hrun & _ & _ & _ & Hhouses).
  rewrite Hh, Hrpc in Hhouses. destruct (decide (n = "")); [done|].
  exists s'. split; [exact Hrun|]. unfold house_total. rewrite Hhouses.
  unfold sql_adjust_house_points. split.
  - by rewrite lookup_insert_eq.
  - intros k Hne. by apply lookup_insert_ne.
Qed.

(** [Backend.admin_points] on a stored student: the total and the
    transaction are written first; the answer is the new total unless the
    student has a house and the [rpc] raises, which ends the request in 400
    with the two writes done. *)
Lemma backend_admin_points_run
    (env : Env) (change : PointsRequest) (s : Store) (st : Student) :
  supabase_configured env = true →
  students s !! student_id change = Some st →
  ∃ s',
    Backend.admin_points env change s =
      (if negb (truthy (assigned_house st)) || rpc_adjust_house_points env
       then Ok (total_points st + delta change)
       else Raise (HTTPException 400), s') ∧
    students s' =
      <[student_id change := with_total st (total_points st + delta change)]>
        (students s) ∧
    point_transactions s' =
      (point_transactions s ++
       [mkPointTransaction (student_id change) (delta change)
                           (reason change)])%list ∧
    houses s' =
      (if truthy (assigned_house st) && rpc_adjust_house_points env
       then sql_adjust_house_points (default "" (assigned_house st))
              (delta change) (houses s)
       else houses s).
Proof.
  intros Hc Hst. unfold Backend.admin_points, Backend.ensure_client,
    Backend.except_400. rewrite Hc. run_m. rewrite Hst. simpl.
  rewrite (alter_lookup_insert (λ r, with_total r _) _ st) by done.
  destruct (truthy (assigned_house st)); simpl;
    [destruct (rpc_adjust_house_points env); simpl|];
    (eexists; split; [reflexivity|]; by repeat split).
Qed.

(** The end-to-end scenario: numeric answers [1,1,1,0] give the tallies
    1, 3, 0, 0 and the house Slytherin. *)
Example numeric_1110 :
  Backend.quiz_scores
    [mkQuizAnswer 1 1; mkQuizAnswer 2 1; mkQuizAnswer 3 1; mkQuizAnswer 4 0] =
    Ok (scores4 1 3 0 0) ∧
  Backend.assign_house_from_quiz
    [mkQuizAnswer 1 1; mkQuizAnswer 2 1; mkQuizAnswer 3 1; mkQuizAnswer 4 0] =
    Ok "Slytherin".
Proof. split; reflexivity. Qed.

(** Value 9 counts as 3 and value -4 as 0. *)
Example numeric_out_of_range :
  Backend.quiz_scores [mkQuizAnswer 1 9; mkQuizAnswer 2 (-4)] =
  Ok (scores4 1 0 0 1).
Proof. reflexivity. Qed.

(** One answer with a Gryffindor keyword and a Ravenclaw keyword. *)
Example keyword_two_houses :
  Main.quiz_scores ascii_lower ["Brave and CLEVER"] = Ok (scores4 1 0 0 1) ∧
  Main.map_quiz_to_house ascii_lower ["Brave and CLEVER"] = Ok "Gryffindor".
Proof. split; reflexivity. Qed.

(** * Further properties of the two programs *)

(** ** Scorers: the tallies in closed form *)

Lemma foldr_add_permutation (l1 l2 : list Z) :
  l1 ≡ₚ l2 → foldr Z.add 0 l1 = foldr Z.add 0 l2.
Proof. induction 1; simpl; lia. Qed.

Lemma foldr_add_hits_range {A} (f : A → bool) (l : list A) :
  0 ≤ foldr Z.add 0 ((λ a, hit (f a)) <$> l) ≤ Z.of_nat (length l).
Proof.
  induction l as [|a l IH]; csimpl; [lia|]. destruct (f a); simpl; lia.
Qed.

Lemma backend_for_each_votes (answers : list QuizAnswer) (g s h r : Z) :
  for_each Backend.score_answer answers (scores4 g s h r) =
  Ok (scores4 (g + votes_for 0 answers) (s + votes_for 1 answers)
              (h + votes_for 2 answers) (r + votes_for 3 answers)).
Proof.
  revert g s h r. induction answers as [|a l IH]; intros g s h r.
  - simpl. unfold votes_for. simpl. by rewrite !Z.add_0_r.
  - change (for_each Backend.score_answer (a :: l) (scores4 g s h r))
      with (Backend.score_answer (scores4 g s h r) a ≫=
            for_each Backend.score_answer l).
    rewrite backend_score_answer4. simpl. rewrite IH.
    unfold votes_for. simpl. by rewrite !Z.add_assoc.
Qed.

Lemma main_for_each_mentions (lower : string → string) (answers : list string)
    (g s h r : Z) :
  for_each (Main.score_answer lower) answers (scores4 g s h r) =
  Ok (scores4
        (g + mentions lower ["brave"; "courage"; "daring"; "bold"] answers)
        (s + mentions lower ["ambition"; "cunning"; "power"; "lead"] answers)
        (h + mentions lower ["loyal"; "patience"; "kind"; "fair"] answers)
        (r + mentions lower ["wisdom"; "learn"; "wit"; "clever"] answers)).
Proof.
  revert g s h r. induction answers as [|a l IH]; intros g s h r.
  - simpl. unfold mentions. simpl. by rewrite !Z.add_0_r.
  - change (for_each (Main.score_answer lower) (a :: l) (scores4 g s h r))
      with (Main.score_answer lower (scores4 g s h r) a ≫=
            for_each (Main.score_answer lower) l).
    rewrite main_score_answer4. simpl. rewrite IH.
    unfold mentions. simpl. by rewrite !Z.add_assoc.
Qed.

Lemma votes_for_values (i : Z) (answers : list QuizAnswer) :
  votes_for i answers =
  foldr Z.add 0 ((λ v, hit (nearest_bound v =? i)) <$>
                 (answer_value <$> answers)).
Proof. unfold votes_for. by rewrite <- list_fmap_compose. Qed.

Lemma mentions_lowered (lower : string → string) (keywords : list string)
    (answers : list string) :
  mentions lower keywords answers =
  foldr Z.add 0 ((λ al, hit (any_in al keywords)) <$> (lower <$> answers)).
Proof. unfold mentions. by rewrite <- list_fmap_compose. Qed.

(** X1: every answer casts exactly one vote in the numeric scorer: the
    tally of the house at index [i] is the number of answers whose clamped
    value is [i], and the four tallies add up to the number of answers. *)
Theorem numeric_scorer_one_vote_each (answers : list QuizAnswer) :
  ∃ scores,
    Backend.quiz_scores answers = Ok scores ∧
    (∀ (i : nat) h, HOUSES !! i = Some h →
       dict_get h scores = Some (votes_for (Z.of_nat i) answers)) ∧
    tally scores "Gryffindor" + tally scores "Slytherin" +
    tally scores "Hufflepuff" + tally scores "Ravenclaw" =
    Z.of_nat (length answers).
Proof.
  eexists. split.
  { unfold Backend.quiz_scores.
    change (dict_zeros HOUSES) with (scores4 0 0 0 0).
    apply backend_for_each_votes. }
  split.
  - intros [|[|[|[|i]]]] h Hh; simpl in Hh; try done;
      injection Hh as <-; reflexivity.
  - unfold tally; simpl. rewrite !Z.add_0_l.
    induction answers as [|a l IH]; [done|].
    unfold votes_for in *. csimpl.
    pose proof (nearest_bound_range (answer_value a)) as Hr.
    assert (nearest_bound (answer_value a) = 0 ∨
            nearest_bound (answer_value a) = 1 ∨
            nearest_bound (answer_value a) = 2 ∨
            nearest_bound (answer_value a) = 3) as [E|[E|[E|E]]] by lia;
      rewrite E; simpl; lia.
Qed.

(** X2: the numeric scorer reads nothing but the answer values, and not
    their order: two submissions whose values are the same up to order get
    the same scores and the same house, whatever their question ids. *)
Theorem numeric_scorer_order_and_ids_ignored (a1 a2 : list QuizAnswer) :
  answer_value <$> a1 ≡ₚ answer_value <$> a2 →
  Backend.quiz_scores a1 = Backend.quiz_scores a2 ∧
  Backend.assign_house_from_quiz a1 = Backend.assign_house_from_quiz a2.
Proof.
  intros Hperm.
  assert (Hs : Backend.quiz_scores a1 = Backend.quiz_scores a2).
  { unfold Backend.quiz_scores.
    change (dict_zeros HOUSES) with (scores4 0 0 0 0).
    rewrite !backend_for_each_votes, !votes_for_values.
    by rewrite !(foldr_add_permutation _ _
                   (fmap_Permutation (λ v, hit (nearest_bound v =? _)) _ _ Hperm)). }
  split; [done|]. unfold Backend.assign_house_from_quiz. by rewrite Hs.
Qed.

Lemma numeric_scorer_order_and_ids_ignored_witness :
  Backend.assign_house_from_quiz
    [mkQuizAnswer 1 2; mkQuizAnswer 2 9; mkQuizAnswer 3 2] =
  Backend.assign_house_from_quiz
    [mkQuizAnswer 7 9; mkQuizAnswer 8 2; mkQuizAnswer 9 2].
Proof.
  apply (numeric_scorer_order_and_ids_ignored
           [mkQuizAnswer 1 2; mkQuizAnswer 2 9; mkQuizAnswer 3 2]
           [mkQuizAnswer 7 9; mkQuizAnswer 8 2; mkQuizAnswer 9 2]).
  simpl. apply perm_swap.
Defined.

(** X3: in the keyword scorer the tally of a house is the number of answers
    that mention one of its keywords, so an answer gives a house at most one
    vote however many of its keywords it holds and no tally exceeds the
    number of answers. *)
Theorem keyword_scorer_tallies_are_mentions
    (lower : string → string) (answers : list string) :
  ∃ scores,
    Main.quiz_scores lower answers = Ok scores ∧
    ∀ h keywords, (h, keywords) ∈ house_keywords →
      dict_get h scores = Some (mentions lower keywords answers) ∧
      0 ≤ mentions lower keywords answers ≤ Z.of_nat (length answers).
Proof.
  eexists. split.
  { unfold Main.quiz_scores.
    change (dict_zeros HOUSES) with (scores4 0 0 0 0).
    apply main_for_each_mentions. }
  intros h kws Hk. split; [|apply foldr_add_hits_range].
  apply list_elem_of_lookup in Hk as [j Hj].
  destruct j as [|[|[|[|j]]]]; simpl in Hj; try done;
    injection Hj as <- <-; reflexivity.
Qed.

(** X4: the keyword scorer sees an answer only through its lowercased
    text, and not the order of the answers: submissions whose lowercased
    answers agree up to order, such as the same words in another case, get
    the same house. *)
Theorem keyword_scorer_case_and_order_ignored
    (lower : string → string) (a1 a2 : list string) :
  lower <$> a1 ≡ₚ lower <$> a2 →
  Main.quiz_scores lower a1 = Main.quiz_scores lower a2 ∧
  Main.map_quiz_to_house lower a1 = Main.map_quiz_to_house lower a2.
Proof.
  intros Hperm.
  assert (Hs : Main.quiz_scores lower a1 = Main.quiz_scores lower a2).
  { unfold Main.quiz_scores.
    change (dict_zeros HOUSES) with (scores4 0 0 0 0).
    rewrite !main_for_each_mentions, !mentions_lowered.
    by rewrite !(foldr_add_permutation _ _
                   (fmap_Permutation (λ al, hit (any_in al _)) _ _ Hperm)). }
  split; [done|]. unfold Main.map_quiz_to_house. by rewrite Hs.
Qed.

Lemma keyword_scorer_case_and_order_ignored_witness :
  Main.map_quiz_to_house ascii_lower ["Loyal"; "WIT and wisdom"] =
  Main.map_quiz_to_house ascii_lower ["wit AND Wisdom"; "LOYAL"].
Proof.
  apply (keyword_scorer_case_and_order_ignored ascii_lower
           ["Loyal"; "WIT and wisdom"] ["wit AND Wisdom"; "LOYAL"]).
  vm_compute. apply perm_swap.
Defined.

(** X5: answers that mention no keyword at all leave every tally at 0, and
    the house returned is then Gryffindor, the first of [HOUSES]. *)
Theorem keyword_scorer_defaults_to_first_house
    (lower : string → string) (answers : list string) :
  (∀ a h keywords, a ∈ answers → (h, keywords) ∈ house_keywords →
     any_in (lower a) keywords = false) →
  Main.quiz_scores lower answers = Ok (scores4 0 0 0 0) ∧
  Main.map_quiz_to_house lower answers = Ok "Gryffindor".
Proof.
  intros Hnone.
  assert (Hzero : ∀ h keywords, (h, keywords) ∈ house_keywords →
            mentions lower keywords answers = 0).
  { intros h kws Hk. unfold mentions.
    induction answers as [|a l IH]; [done|]. csimpl.
    rewrite (Hnone a h kws) by (done || apply list_elem_of_here).
    rewrite IH; [done|]. intros a' h' kws' Ha'. apply Hnone.
    by apply list_elem_of_further. }
  assert (Hs : Main.quiz_scores lower answers = Ok (scores4 0 0 0 0)).
  { unfold Main.quiz_scores.
    change (dict_zeros HOUSES) with (scores4 0 0 0 0).
    rewrite main_for_each_mentions.
    rewrite (Hzero "Gryffindor"), (Hzero "Slytherin"), (Hzero "Hufflepuff"),
      (Hzero "Ravenclaw"); [done|..]; unfold house_keywords; set_solver. }
  split; [done|]. unfold Main.map_quiz_to_house. by rewrite Hs.
Qed.

Lemma keyword_scorer_defaults_to_first_house_witness :
  Main.map_quiz_to_house ascii_lower ["I like tea"; ""] = Ok "Gryffindor".
Proof.
  apply (keyword_scorer_defaults_to_first_house ascii_lower ["I like tea"; ""]).
  intros a h kws Ha Hk.
  apply list_elem_of_lookup in Ha as [i Hi].
  apply list_elem_of_lookup in Hk as [j Hj].
  destruct i as [|[|i]]; simpl in Hi; try done; injection Hi as <-;
    destruct j as [|[|[|[|j]]]]; simpl in Hj; try done;
    injection Hj as <- <-; reflexivity.
Defined.

(** ** The ledger as an invariant *)

Lemma main_admin_points_refused
    (env : Env) (payload : PointsRequest) (key : option string) (s : Store) :
  admin_key_accepted env key = false →
  Main.admin_points env payload key s = (Raise (HTTPException 401), s).
Proof.
  intros Hk. unfold Main.admin_points.
  unfold mbind at 1, M_bind at 1. by rewrite admin_guard_run, Hk.
Qed.

Lemma main_admin_points_unconfigured
    (env : Env) (payload : PointsRequest) (key : option string) (s : Store) :
  admin_key_accepted env key = true →
  supabase_configured env = false →
  Main.admin_points env payload key s = (Raise (HTTPException 500), s).
Proof.
  intros Hk Hc. unfold Main.admin_points.
  unfold mbind at 1, M_bind at 1. rewrite admin_guard_run, Hk.
  unfold Main.require_supabase. rewrite Hc. by run_m.
Qed.

Lemma backend_admin_points_unconfigured
    (env : Env) (change : PointsRequest) (s : Store) :
  supabase_configured env = false →
  Backend.admin_points env change s = (Raise (HTTPException 500), s).
Proof.
  intros Hc. unfold Backend.admin_points, Backend.ensure_client.
  rewrite Hc. by run_m.
Qed.

Lemma transactions_of_append (id : string) (s s' : Store)
    (tx : PointTransaction) :
  point_transactions s' = (point_transactions s ++ [tx])%list →
  transactions_of id s' =
  (transactions_of id s ++ if decide (tx_student_id tx = id) then [tx] else [])%list.
Proof.
  intros Htx. unfold transactions_of. by rewrite Htx, filter_app.
Qed.

Lemma foldr_add_app (l1 l2 : list Z) :
  foldr Z.add 0 (l1 ++ l2) = foldr Z.add 0 l1 + foldr Z.add 0 l2.
Proof. induction l1 as [|x l1 IH]; simpl; lia. Qed.

(** Writing a total and logging the same delta keeps the ledger adding up. *)
Lemma ledger_consistent_grant (s s' : Store) (id : string) (st : Student)
    (d : Z) (why : string) :
  ledger_consistent s →
  students s !! id = Some st →
  students s' = <[id := with_total st (total_points st + d)]> (students s) →
  point_transactions s' =
    (point_transactions s ++ [mkPointTransaction id d why])%list →
  ledger_consistent s'.
Proof.
  intros Hcons Hst Hstu Htx id'.
  specialize (Hcons id'). unfold student_total, ledger_sum in *.
  rewrite (transactions_of_append id' s s' _ Htx), Hstu, fmap_app, foldr_add_app.
  simpl. destruct (decide (id = id')) as [<-|Hne].
  - rewrite lookup_insert_eq. rewrite Hst in Hcons. simpl in *. lia.
  - rewrite lookup_insert_ne by done. simpl. lia.
Qed.

(** X6: [POST /admin/points] of [src/main.py] keeps the ledger adding up,
    whatever it answers and whichever SQL functions exist: if every stored
    total was the sum of the student's logged deltas before the request, it
    is so after it. *)
Theorem main_admin_points_keeps_ledger
    (env : Env) (payload : PointsRequest) (key : option string)
    (s s' : Store) (r : res Z) :
  ledger_consistent s →
  Main.admin_points env payload key s = (r, s') →
  ledger_consistent s'.
Proof.
  intros Hcons Hrun.
  destruct (admin_key_accepted env key) eqn:Hk;
    [|rewrite main_admin_points_refused in Hrun by done; congruence].
  destruct (supabase_configured env) eqn:Hc;
    [|rewrite main_admin_points_unconfigured in Hrun by done; congruence].
  destruct (students s !! student_id payload) as [st|] eqn:Hst;
    [|rewrite main_admin_points_not_found in Hrun by done; congruence].
  destruct (main_admin_points_run env payload key s st Hk Hc Hst)
    as (s1 & Hrun1 & Hstu & Htx & _ & _).
  rewrite Hrun in Hrun1. injection Hrun1 as _ <-.
  by eapply ledger_consistent_grant.
Qed.

Lemma main_admin_points_keeps_ledger_witness :
  ledger_consistent
    (Main.admin_points env_no_rpc (mkPointsRequest "u1" 5 "quiz bonus") None
       (mkStore {["u1" := with_total harry 0]} ∅ [] [])).2.
Proof.
  eapply (main_admin_points_keeps_ledger env_no_rpc
            (mkPointsRequest "u1" 5 "quiz bonus") None
            (mkStore {["u1" := with_total harry 0]} ∅ [] [])).
  - intros id. unfold student_total, ledger_sum, transactions_of. simpl.
    destruct (decide (id = "u1")) as [->|Hne]; [reflexivity|].
    by rewrite lookup_singleton_ne.
  - apply surjective_pairing.
Defined.

(** X7: [POST /admin/points] of [src/backend/main.py] keeps the ledger
    adding up as well, and does so even when it answers 400 after its
    writes: the total and the transaction are written together before the
    [rpc] that can fail. *)
Theorem backend_admin_points_keeps_ledger
    (env : Env) (change : PointsRequest) (s s' : Store) (r : res Z) :
  ledger_consistent s →
  Backend.admin_points env change s = (r, s') →
  ledger_consistent s'.
Proof.
  intros Hcons Hrun.
  destruct (supabase_configured env) eqn:Hc;
    [|rewrite backend_admin_points_unconfigured in Hrun by done; congruence].
  destruct (students s !! student_id change) as [st|] eqn:Hst;
    [|rewrite backend_admin_points_not_found in Hrun by done; congruence].
  destruct (backend_admin_points_run env change s st Hc Hst)
    as (s1 & Hrun1 & Hstu & Htx & _).
  rewrite Hrun in Hrun1. injection Hrun1 as _ <-.
  by eapply ledger_consistent_grant.
Qed.

Lemma backend_admin_points_keeps_ledger_witness :
  ledger_consistent
    (Backend.admin_points env_no_rpc (mkPointsRequest "u1" 5 "quiz bonus")
       (mkStore {["u1" := with_total harry 0]} ∅ [] [])).2.
Proof.
  eapply (backend_admin_points_keeps_ledger env_no_rpc
            (mkPointsRequest "u1" 5 "quiz bonus")
            (mkStore {["u1" := with_total harry 0]} ∅ [] [])).
  - intros id. unfold student_total, ledger_sum, transactions_of. simpl.
    destruct (decide (id = "u1")) as [->|Hne]; [reflexivity|].
    by rewrite lookup_singleton_ne.
  - apply surjective_pairing.
Defined.

(** X8: in [src/backend/main.py] a points change for a student with a house
    is not all-or-nothing: when the [rpc] to [adjust_house_points] raises,
    the request is answered 400, yet the student's new total and the
    transaction are already stored, and the house total is as before. *)
Theorem backend_admin_points_partial_write
    (env : Env) (change : PointsRequest) (s : Store) (st : Student) :
  supabase_configured env = true →
  students s !! student_id change = Some st →
  truthy (assigned_house st) = true →
  rpc_adjust_house_points env = false →
  ∃ s',
    Backend.admin_points env change s = (Raise (HTTPException 400), s') ∧
    student_total s' (student_id change) = total_points st + delta change ∧
    point_transactions s' =
      (point_transactions s ++
       [mkPointTransaction (student_id change) (delta change)
                           (reason change)])%list ∧
    houses s' = houses s.
Proof.
  intros Hc Hst Hh Hrpc.
  destruct (backend_admin_points_run env change s st Hc Hst)
    as (s' & Hrun & Hstu & Htx & Hhouses).
  rewrite Hh, Hrpc in Hrun, Hhouses. simpl in *.
  exists s'. split; [exact Hrun|]. split; [|by split].
  unfold student_total. by rewrite Hstu, lookup_insert_eq.
Qed.

Lemma backend_admin_points_partial_write_witness :
  ∃ s',
    Backend.admin_points env_no_rpc (mkPointsRequest "u1" 5 "quiz bonus")
      store0 = (Raise (HTTPException 400), s') ∧
    student_total s' "u1" = 12 ∧
    houses s' = houses store0.
Proof.
  destruct (backend_admin_points_partial_write env_no_rpc
              (mkPointsRequest "u1" 5 "quiz bonus") store0 harry
              eq_refl eq_refl eq_refl eq_refl)
    as (s' & Hrun & Htotal & _ & Hhouses).
  by exists s'.
Defined.

(** X9: house aggregate conservation in [src/main.py]: when at least one of
    the two SQL functions exists, a sequence of points changes for a student
    with a house raises that house's total by the sum of the deltas. *)
Theorem main_apply_changes_house_sum
    (env : Env) (key : option string) (id : string)
    (changes : list (Z * string)) (s : Store) (st : Student) (n : string) :
  admin_key_accepted env key = true →
  supabase_configured env = true →
  rpc_adjust_house_points env || rpc_ensure_house_exists env = true →
  students s !! id = Some st →
  assigned_house st = Some n → n ≠ "" →
  ∃ s',
    apply_changes env key id changes s = (Ok tt, s') ∧
    house_total s' n = house_total s n + foldr Z.add 0 (changes.*1).
Proof.
  intros Hk Hc Hrpc. revert s st.
  induction changes as [|[d why] rest IH]; intros s st Hst Hh Hn; csimpl.
  - exists s. split; [done|]. lia.
  - destruct (main_admin_points_run env (mkPointsRequest id d why) key s st
                Hk Hc Hst) as (s1 & Hrun & Hstu & _ & _ & Hhouses).
    simpl in *. rewrite Hh, Hrpc in Hhouses.
    destruct (decide (n = "")); [done|].
    destruct (IH s1 (with_total st (total_points st + d)))
      as (s' & Hrest & Hsum); [by rewrite Hstu, lookup_insert_eq|done..|].
    exists s'. split.
    + unfold mbind, M_bind. by rewrite Hrun.
    + rewrite Hsum. unfold house_total at 1. rewrite Hhouses.
      unfold sql_adjust_house_points. rewrite lookup_insert_eq. simpl.
      unfold house_total. lia.
Qed.

Lemma main_apply_changes_house_sum_witness :
  ∃ s',
    apply_changes env_ensure_rpc_only None "u1" [(5, "a"); (-2, "b"); (10, "c")]
      store0 = (Ok tt, s') ∧
    house_total s' "Gryffindor" = 63.
Proof.
  destruct (main_apply_changes_house_sum env_ensure_rpc_only None "u1"
              [(5, "a"); (-2, "b"); (10, "c")] store0 harry "Gryffindor"
              eq_refl eq_refl eq_refl eq_refl eq_refl)
    as (s' & Hrun & Hsum); [done|].
  by exists s'.
Defined.

(** ** Signup *)

Lemma main_signup_user_id_cases (auth : Auth) (payload : SignupRequest) :
  (∃ id, Main.signup_user_id auth payload = Ok id) ∨
  Main.signup_user_id auth payload = Raise (HTTPException 400).
Proof.
  unfold Main.signup_user_id.
  destruct (_ ≫= _) as [id|e]; [left; by exists id|].
  destruct (_ ≫= _) as [id|e']; [left; by exists id | by right].
Qed.

Lemma main_signup_run (env : Env) (auth : Auth) (payload : SignupRequest)
    (s : Store) (id : string) :
  supabase_configured env = true →
  Main.signup_user_id auth payload = Ok id →
  ∃ s',
    Main.signup env auth payload s = (Ok id, s') ∧
    students s' = <[id := fresh_profile payload]> (students s) ∧
    point_transactions s' = point_transactions s ∧
    quiz_answers s' = quiz_answers s ∧
    (∀ h, h ∈ HOUSES → houses s' !! h = Some 0) ∧
    (∀ h, h ∉ HOUSES → houses s' !! h = houses s !! h).
Proof.
  intros Hc Hid.
  destruct (main_ensure_houses_seeded_run env s Hc)
    as (s1 & Hseed & Hstu & Htx & Hqa & Hin & Hout).
  unfold Main.signup.
  unfold mbind at 1, M_bind at 1, Main.require_supabase at 1. rewrite Hc.
  unfold mret at 1, M_ret at 1.
  unfold mbind at 1, M_bind at 1, lift at 1. rewrite Hid.
  unfold mbind at 1, M_bind at 1. rewrite Hseed.
  run_m. eexists. split; [reflexivity|]. simpl. by rewrite Hstu.
Qed.

Lemma main_signup_refused (env : Env) (auth : Auth) (payload : SignupRequest)
    (s : Store) :
  supabase_configured env = true →
  Main.signup_user_id auth payload = Raise (HTTPException 400) →
  Main.signup env auth payload s = (Raise (HTTPException 400), s).
Proof.
  intros Hc Hid. unfold Main.signup, Main.require_supabase.
  rewrite Hc. run_m. by rewrite Hid.
Qed.

Lemma main_signup_unconfigured (env : Env) (auth : Auth)
    (payload : SignupRequest) (s : Store) :
  supabase_configured env = false →
  Main.signup env auth payload s = (Raise (HTTPException 500), s).
Proof.
  intros Hc. unfold Main.signup, Main.require_supabase. rewrite Hc. by run_m.
Qed.

(** X10: [POST /auth/signup] of [src/main.py] writes only once the identity
    service has settled a user id: it answers that id with the profile
    stored under it, or it answers 400 (no id from [sign_up], the lookup by
    email or [create_user]) or 500 (no client) and the store is exactly as
    before. *)
Theorem main_signup_writes_only_with_an_id
    (env : Env) (auth : Auth) (payload : SignupRequest) (s : Store) :
  (∃ id s',
     Main.signup_user_id auth payload = Ok id ∧
     Main.signup env auth payload s = (Ok id, s') ∧
     students s' !! id = Some (fresh_profile payload)) ∨
  (Main.signup_user_id auth payload = Raise (HTTPException 400) ∧
   Main.signup env auth payload s = (Raise (HTTPException 400), s)) ∨
  Main.signup env auth payload s = (Raise (HTTPException 500), s).
Proof.
  destruct (supabase_configured env) eqn:Hc;
    [|right; right; by apply main_signup_unconfigured].
  destruct (main_signup_user_id_cases auth payload) as [[id Hid]|Hid].
  - left. destruct (main_signup_run env auth payload s id Hc Hid)
      as (s' & Hrun & Hstu & _).
    exists id, s'. repeat split; try done. by rewrite Hstu, lookup_insert_eq.
  - right; left. split; [done|]. by apply main_signup_refused.
Qed.

(** X11: a second signup does not touch the transaction log, so on a
    student whose logged deltas do not sum to 0 it leaves a stored total,
    0, that no longer matches the log. *)
Theorem main_signup_breaks_ledger
    (env : Env) (auth : Auth) (payload : SignupRequest) (s : Store)
    (id : string) :
  supabase_configured env = true →
  Main.signup_user_id auth payload = Ok id →
  ledger_sum id s ≠ 0 →
  ∃ s',
    Main.signup env auth payload s = (Ok id, s') ∧
    student_total s' id = 0 ∧
    ledger_sum id s' = ledger_sum id s ∧
    ¬ ledger_consistent s'.
Proof.
  intros Hc Hid Hsum.
  destruct (main_signup_run env auth payload s id Hc Hid)
    as (s' & Hrun & Hstu & Htx & _).
  assert (Htotal : student_total s' id = 0).
  { unfold student_total. by rewrite Hstu, lookup_insert_eq. }
  assert (Hlog : ledger_sum id s' = ledger_sum id s).
  { unfold ledger_sum, transactions_of. by rewrite Htx. }
  exists s'. repeat split; try done.
  intros Hcons. specialize (Hcons id). lia.
Qed.

Lemma main_signup_breaks_ledger_witness :
  ∃ s',
    Main.signup env_all_rpc auth_existing harry_again
      (mkStore {["u1" := harry]} ∅ [mkPointTransaction "u1" 7 "first"] []) =
      (Ok "u1", s') ∧
    ¬ ledger_consistent s'.
Proof.
  destruct (main_signup_breaks_ledger env_all_rpc auth_existing harry_again
              (mkStore {["u1" := harry]} ∅ [mkPointTransaction "u1" 7 "first"] [])
              "u1" eq_refl eq_refl)
    as (s' & Hrun & _ & _ & Hbad); [by vm_compute|].
  by exists s'.
Defined.

(** X12: [POST /auth/signup] of [src/backend/main.py] inserts and never
    overwrites: it answers the id of a user that had no row, having added
    exactly that row (no house, total 0) and nothing else, or it answers
    400 or 500 with the store untouched; in particular a student that
    already has a row keeps it as it is. *)
Theorem backend_signup_insert_or_nothing
    (env : Env) (auth : Auth) (payload : SignupRequest) (s : Store) :
  ((∃ id,
      sign_up auth (req_email payload) (req_password payload) = Ok (Some id) ∧
      students s !! id = None ∧
      Backend.signup env auth payload s =
        (Ok id, set_students (insert id (fresh_profile payload)) s)) ∨
   Backend.signup env auth payload s = (Raise (HTTPException 400), s) ∨
   Backend.signup env auth payload s = (Raise (HTTPException 500), s)) ∧
  (∀ id old, students s !! id = Some old →
     students (Backend.signup env auth payload s).2 !! id = Some old).
Proof.
  unfold Backend.signup, Backend.ensure_client, Backend.except_400.
  destruct (supabase_configured env); run_m; unfold_read_calls;
    [|split; [by right; right | done]].
  destruct (sign_up auth _ _) as [[id|]|e]; simpl;
    [|split; [by right; left | done]..].
  destruct (students s !! id) as [row|] eqn:Hrow; simpl.
  - split; [by right; left | done].
  - split; [left; by exists id|].
    intros id' old Hold. rewrite lookup_insert_ne; [done|congruence].
Qed.

(** ** Quiz submission, all four tables *)

Lemma main_submit_quiz_full (lower : string → string) (env : Env)
    (user_id : string) (answers : list string) (s : Store) :
  supabase_configured env = true →
  ∃ house,
    Main.map_quiz_to_house lower answers = Ok house ∧
    house ∈ HOUSES ∧
    Main.submit_quiz lower env user_id answers s =
      (Ok house,
       mkStore
         (alter (λ r, with_house r (Some house)) user_id (students s))
         ((if rpc_ensure_house_exists env
           then sql_ensure_house_exists house else insert house 0) (houses s))
         (point_transactions s)
         (quiz_answers s ++ [mkQuizAnswersRow user_id (TextAnswers answers)])).
Proof.
  intros Hc.
  destruct (main_map_quiz_to_house_total lower answers)
    as (scores & house & _ & Hhouse & (i & Hi & _)).
  exists house. split; [done|]. split; [apply list_elem_of_lookup; eauto|].
  unfold Main.submit_quiz, Main.ensure_house_exists, Main.require_supabase.
  rewrite Hc, Hhouse. run_m.
  by destruct (rpc_ensure_house_exists env).
Qed.

Lemma main_submit_quiz_unconfigured (lower : string → string) (env : Env)
    (user_id : string) (answers : list string) (s : Store) :
  supabase_configured env = false →
  Main.submit_quiz lower env user_id answers s = (Raise (HTTPException 500), s).
Proof.
  intros Hc. unfold Main.submit_quiz, Main.require_supabase.
  rewrite Hc. by run_m.
Qed.

Lemma backend_quiz_submit_full (env : Env) (user_id : string)
    (answers : list QuizAnswer) (s : Store) :
  supabase_configured env = true →
  ∃ house,
    Backend.assign_house_from_quiz answers = Ok house ∧
    house ∈ HOUSES ∧
    Backend.quiz_submit env user_id answers s =
      (if rpc_ensure_house_exists env then Ok house
       else Raise (HTTPException 400),
       mkStore
         (alter (λ r, with_house r (Some house)) user_id (students s))
         ((if rpc_ensure_house_exists env
           then sql_ensure_house_exists house else id) (houses s))
         (point_transactions s)
         (quiz_answers s ++
          [mkQuizAnswersRow user_id (DumpedAnswers answers)])).
Proof.
  intros Hc.
  destruct (backend_assign_house_total answers)
    as (scores & house & _ & Hhouse & (i & Hi & _)).
  exists house. split; [done|]. split; [apply list_elem_of_lookup; eauto|].
  unfold Backend.quiz_submit, Backend.ensure_client, Backend.except_400.
  rewrite Hc, Hhouse. run_m.
  by destruct (rpc_ensure_house_exists env).
Qed.

Lemma backend_quiz_submit_unconfigured (env : Env) (user_id : string)
    (answers : list QuizAnswer) (s : Store) :
  supabase_configured env = false →
  Backend.quiz_submit env user_id answers s = (Raise (HTTPException 500), s).
Proof.
  intros Hc. unfold Backend.quiz_submit, Backend.ensure_client.
  rewrite Hc. by run_m.
Qed.

Lemma student_total_alter_house (t : gmap string Student) (id id' : string)
    (h : option string) :
  default 0 (total_points <$> alter (λ r, with_house r h) id t !! id') =
  default 0 (total_points <$> t !! id').
Proof.
  rewrite lookup_alter. case_decide; [|done]. subst id'.
  by destruct (t !! id).
Qed.

(** X13: assigning a house never moves points: a quiz submission, in either
    program and whatever it answers, changes no student's [total_points]
    and no transaction, so a ledger that added up before still does. *)
Theorem quiz_submission_keeps_ledger
    (lower : string → string) (env : Env) (user_id : string)
    (text : list string) (numeric : list QuizAnswer) (s : Store) :
  ledger_consistent s →
  (∀ id, student_total (Main.submit_quiz lower env user_id text s).2 id =
         student_total s id) ∧
  ledger_consistent (Main.submit_quiz lower env user_id text s).2 ∧
  (∀ id, student_total (Backend.quiz_submit env user_id numeric s).2 id =
         student_total s id) ∧
  ledger_consistent (Backend.quiz_submit env user_id numeric s).2.
Proof.
  intros Hcons.
  destruct (supabase_configured env) eqn:Hc.
  - destruct (main_submit_quiz_full lower env user_id text s Hc)
      as (h1 & _ & _ & ->).
    destruct (backend_quiz_submit_full env user_id numeric s Hc)
      as (h2 & _ & _ & ->).
    simpl. unfold ledger_consistent, student_total, ledger_sum,
      transactions_of in *. simpl.
    repeat split; intros id; rewrite student_total_alter_house; eauto.
  - rewrite main_submit_quiz_unconfigured, backend_quiz_submit_unconfigured
      by done. by repeat split.
Qed.

Lemma quiz_submission_keeps_ledger_witness :
  ledger_consistent
    (Main.submit_quiz ascii_lower env_no_rpc "u1" ["bold"]
       (mkStore {["u1" := with_total harry 0]} ∅ [] [])).2.
Proof.
  apply (quiz_submission_keeps_ledger ascii_lower env_no_rpc "u1" ["bold"] []
           (mkStore {["u1" := with_total harry 0]} ∅ [] [])).
  intros id. unfold student_total, ledger_sum, transactions_of. simpl.
  destruct (decide (id = "u1")) as [->|Hne]; [reflexivity|].
  by rewrite lookup_singleton_ne.
Defined.

(** X14: a resubmission in [src/main.py] overwrites the house and keeps the
    history: after two submissions the student's row differs from the
    original only in [assigned_house], which is the house scored from the
    second answers, and both answer records are stored, in order. *)
Theorem main_quiz_resubmission
    (lower : string → string) (env : Env) (user_id : string)
    (first second : list string) (s : Store) (st : Student) :
  supabase_configured env = true →
  students s !! user_id = Some st →
  ∃ house s',
    Main.map_quiz_to_house lower second = Ok house ∧
    (Main.submit_quiz lower env user_id first;;
     Main.submit_quiz lower env user_id second) s = (Ok house, s') ∧
    students s' = <[user_id := with_house st (Some house)]> (students s) ∧
    quiz_answers s' =
      (quiz_answers s ++
       [mkQuizAnswersRow user_id (TextAnswers first);
        mkQuizAnswersRow user_id (TextAnswers second)])%list ∧
    point_transactions s' = point_transactions s.
Proof.
  intros Hc Hst.
  destruct (main_submit_quiz_full lower env user_id first s Hc)
    as (h1 & _ & _ & Hrun1).
  set (s1 := mkStore _ _ _ _) in Hrun1.
  destruct (main_submit_quiz_full lower env user_id second s1 Hc)
    as (h2 & Hh2 & _ & Hrun2).
  exists h2. eexists. split; [done|]. split.
  { unfold mbind at 1, M_bind at 1. rewrite Hrun1. exact Hrun2. }
  subst s1. simpl. split; [|split; [by rewrite <- app_assoc | done]].
  rewrite (alter_lookup_insert (λ r, with_house r (Some h1)) _ st) by done.
  rewrite (alter_lookup_insert (λ r, with_house r (Some h2)) _
             (with_house st (Some h1))) by apply lookup_insert_eq.
  by rewrite insert_insert_eq.
Qed.

Lemma main_quiz_resubmission_witness :
  ∃ s',
    (Main.submit_quiz ascii_lower env_no_rpc "u1" ["bold"];;
     Main.submit_quiz ascii_lower env_no_rpc "u1" ["so kind"; "loyal"]) store0 =
      (Ok "Hufflepuff", s') ∧
    students s' = <[ "u1" := with_house harry (Some "Hufflepuff")]> (students store0).
Proof.
  destruct (main_quiz_resubmission ascii_lower env_no_rpc "u1" ["bold"]
              ["so kind"; "loyal"] store0 harry eq_refl eq_refl)
    as (house & s' & Hh & Hrun & Hstu & _).
  vm_compute in Hh. injection Hh as <-. by exists s'.
Defined.

(** X15: a quiz submission touches no row of [houses] but the one of the
    house it scored from the answers.  In [src/main.py], which answers that
    house, the row keeps its total when the SQL function
    [ensure_house_exists] answers the [rpc], and is put to 0 by the upsert
    fallback when it does not; in [src/backend/main.py] the row is written
    only through the [rpc], and without it the request ends in 400 with
    [houses] as it was. *)
Theorem quiz_submission_house_rows
    (lower : string → string) (env : Env) (user_id : string)
    (text : list string) (numeric : list QuizAnswer) (s : Store) :
  supabase_configured env = true →
  (∃ house s',
     Main.map_quiz_to_house lower text = Ok house ∧
     Main.submit_quiz lower env user_id text s = (Ok house, s') ∧
     house ∈ HOUSES ∧
     houses s' !! house =
       Some (if rpc_ensure_house_exists env then house_total s house else 0) ∧
     (∀ k, k ≠ house → houses s' !! k = houses s !! k)) ∧
  (∃ house s',
     Backend.assign_house_from_quiz numeric = Ok house ∧
     Backend.quiz_submit env user_id numeric s =
       (if rpc_ensure_house_exists env then Ok house
        else Raise (HTTPException 400), s') ∧
     house ∈ HOUSES ∧
     (if rpc_ensure_house_exists env
      then houses s' !! house = Some (house_total s house)
      else houses s' = houses s) ∧
     (∀ k, k ≠ house → houses s' !! k = houses s !! k)).
Proof.
  intros Hc. split.
  - destruct (main_submit_quiz_full lower env user_id text s Hc)
      as (house & Hscore & Hin & Hrun).
    exists house. eexists. split; [exact Hscore|]. split; [exact Hrun|].
    split; [done|]. simpl.
    unfold sql_ensure_house_exists, house_total.
    destruct (rpc_ensure_house_exists env).
    + destruct (houses s !! house) as [t|] eqn:Ht; simpl.
      * by split.
      * split; [apply lookup_insert_eq|]. intros k Hk.
        by apply lookup_insert_ne.
    + split; [apply lookup_insert_eq|]. intros k Hk. by apply lookup_insert_ne.
  - destruct (backend_quiz_submit_full env user_id numeric s Hc)
      as (house & Hscore & Hin & Hrun).
    exists house. eexists. split; [exact Hscore|]. split; [exact Hrun|].
    split; [done|]. simpl.
    unfold sql_ensure_house_exists, house_total.
    destruct (rpc_ensure_house_exists env); [|done].
    destruct (houses s !! house) as [t|] eqn:Ht; simpl.
    + by split.
    + split; [apply lookup_insert_eq|]. intros k Hk. by apply lookup_insert_ne.
Qed.

Lemma quiz_submission_house_rows_witness :
  ∃ s',
    Main.submit_quiz ascii_lower env_no_rpc "u1" ["bold"] store0 =
      (Ok "Gryffindor", s') ∧
    houses s' !! "Gryffindor" = Some 0.
Proof.
  destruct (quiz_submission_house_rows ascii_lower env_no_rpc "u1" ["bold"] []
              store0 eq_refl)
    as [(house & s' & Hscore & Hrun & _ & Hrow & _) _].
  vm_compute in Hscore. injection Hscore as <-.
  by exists s'.
Defined.

(** ** Student dashboard *)

Lemma recent_rows (id : string) (n : nat) (s : Store) :
  take n (reverse (tx_row <$>
    filter (λ tx, tx_student_id tx = id) (point_transactions s))) =
  tx_row <$> take n (reverse (transactions_of id s)).
Proof. unfold transactions_of. by rewrite fmap_take, fmap_reverse. Qed.

Lemma main_student_dashboard_run (env : Env) (id : string) (s : Store) :
  Main.student_dashboard env id s =
  if supabase_configured env then
    match students s !! id with
    | Some st =>
        (Ok (profile_row id st, map_to_list (houses s),
             tx_row <$> take 20 (reverse (transactions_of id s))), s)
    | None => (Raise (HTTPException 404), s)
    end
  else (Raise (HTTPException 500), s).
Proof.
  unfold Main.student_dashboard, Main.require_supabase.
  destruct (supabase_configured env); run_m; [|done].
  destruct (students s !! id); simpl; [|done].
  unfold_read_calls. by rewrite recent_rows.
Qed.

Lemma backend_student_dashboard_run (env : Env) (id : string) (s : Store) :
  Backend.student_dashboard env id s =
  if supabase_configured env then
    match students s !! id with
    | Some st =>
        (Ok (profile_row id st, map_to_list (houses s),
             tx_row <$> take 50 (reverse (transactions_of id s))), s)
    | None => (Raise (HTTPException 400), s)
    end
  else (Raise (HTTPException 500), s).
Proof.
  unfold Backend.student_dashboard, Backend.ensure_client, Backend.except_400.
  destruct (supabase_configured env); run_m; [|done].
  destruct (students s !! id); simpl.
  - unfold_read_calls. by rewrite recent_rows.
  - by destruct (single_empty_raises env).
Qed.

(** X16: the dashboard of an id without a student row is refused: with 404
    in [src/main.py], and with 400 in [src/backend/main.py], whose
    [except Exception] catches the 404 it raises; nothing is read further
    and nothing is written. *)
Theorem student_dashboard_unknown_id (env : Env) (id : string) (s : Store) :
  supabase_configured env = true →
  students s !! id = None →
  Main.student_dashboard env id s = (Raise (HTTPException 404), s) ∧
  Backend.student_dashboard env id s = (Raise (HTTPException 400), s).
Proof.
  intros Hc Hnone.
  by rewrite main_student_dashboard_run, backend_student_dashboard_run, Hc, Hnone.
Qed.

Lemma student_dashboard_unknown_id_witness :
  Main.student_dashboard env_all_rpc "ghost" store0 =
    (Raise (HTTPException 404), store0) ∧
  Backend.student_dashboard env_all_rpc "ghost" store0 =
    (Raise (HTTPException 400), store0).
Proof.
  apply (student_dashboard_unknown_id env_all_rpc "ghost" store0);
    reflexivity.
Defined.

(** X17: for a stored student the dashboard answers the student's own row,
    every house row exactly once, and the student's transactions newest
    first, cut after the first 20 ([src/main.py]) or 50
    ([src/backend/main.py]): no transaction of another student is shown,
    and all are shown while there are no more than the limit. *)
Theorem student_dashboard_contents
    (env : Env) (id : string) (s : Store) (st : Student) :
  supabase_configured env = true →
  students s !! id = Some st →
  ∃ hs txs txs',
    Main.student_dashboard env id s = (Ok (profile_row id st, hs, txs), s) ∧
    Backend.student_dashboard env id s = (Ok (profile_row id st, hs, txs'), s) ∧
    (∀ n t, (n, t) ∈ hs ↔ houses s !! n = Some t) ∧
    NoDup hs.*1 ∧
    txs = tx_row <$> take 20 (reverse (transactions_of id s)) ∧
    txs' = tx_row <$> take 50 (reverse (transactions_of id s)) ∧
    length txs = (20 `min` length (transactions_of id s))%nat ∧
    length txs' = (50 `min` length (transactions_of id s))%nat ∧
    (∀ tx, tx ∈ take 50 (reverse (transactions_of id s)) →
       tx_student_id tx = id ∧ tx ∈ point_transactions s).
Proof.
  intros Hc Hst. eexists _, _, _.
  rewrite main_student_dashboard_run, backend_student_dashboard_run, Hc, Hst.
  split; [reflexivity|]. split; [reflexivity|].
  split; [intros n t; apply elem_of_map_to_list|].
  split; [apply NoDup_fst_map_to_list|].
  split; [done|]. split; [done|].
  rewrite !length_fmap, !length_take, !length_reverse.
  split; [done|]. split; [done|].
  intros tx Htx. apply elem_of_take in Htx as (i & Hi & _).
  assert (tx ∈ transactions_of id s) as Hin.
  { apply elem_of_reverse, list_elem_of_lookup. eauto. }
  unfold transactions_of in Hin. by apply list_elem_of_filter in Hin.
Qed.

Lemma student_dashboard_contents_witness :
  ∃ hs txs,
    Main.student_dashboard env_all_rpc "u1" store_log =
      (Ok (profile_row "u1" harry, hs, txs), store_log) ∧
    txs = [mkTxRow 4 "b"; mkTxRow 3 "a"].
Proof.
  destruct (student_dashboard_contents env_all_rpc "u1" store_log harry)
    as (hs & txs & txs' & Hrun & _ & _ & _ & Htxs & _); [reflexivity..|].
  exists hs, txs. split; [exact Hrun|]. rewrite Htxs. reflexivity.
Defined.

(** X18: what the dashboard shows after a run of points changes: for a
    student that started with total 0 and an empty log, the profile carries
    the sum of all the deltas and the list shows the changes newest first,
    cut after 20; while there are at most 20 changes the deltas listed add
    up to the total shown. *)
Theorem main_dashboard_after_changes
    (env : Env) (key : option string) (id : string)
    (changes : list (Z * string)) (s : Store) (st : Student) :
  admin_key_accepted env key = true →
  supabase_configured env = true →
  students s !! id = Some st →
  total_points st = 0 →
  transactions_of id s = [] →
  ∃ s' profile hs txs,
    apply_changes env key id changes s = (Ok tt, s') ∧
    Main.student_dashboard env id s' = (Ok (profile, hs, txs), s') ∧
    pr_total_points profile = foldr Z.add 0 (changes.*1) ∧
    txs = take 20 (reverse ((λ c, mkTxRow c.1 c.2) <$> changes)) ∧
    ((length changes ≤ 20)%nat →
     foldr Z.add 0 (txr_delta <$> txs) = pr_total_points profile).
Proof.
  intros Hk Hc Hst Hzero Hlog.
  destruct (main_apply_changes_conservation env key id changes s st Hk Hc Hst)
    as (s' & Hrun & Htotal & _ & Hof).
  destruct (students s' !! id) as [st'|] eqn:Hst'; [|done].
  simpl in Htotal. injection Htotal as Htotal.
  rewrite Hzero, Z.add_0_l in Htotal. rewrite Hlog in Hof. simpl in Hof.
  assert (Htxs : tx_row <$> take 20 (reverse (transactions_of id s')) =
                 take 20 (reverse ((λ c, mkTxRow c.1 c.2) <$> changes))).
  { rewrite Hof, fmap_take, fmap_reverse. f_equal. f_equal.
    change (map ?f changes) with (f <$> changes).
    rewrite <- list_fmap_compose. by apply list_fmap_ext. }
  exists s', (profile_row id st'). eexists _, _.
  split; [exact Hrun|].
  rewrite main_student_dashboard_run, Hc, Hst', Htxs.
  split; [reflexivity|]. split; [exact Htotal|]. split; [done|].
  intros Hlen. simpl. rewrite Htotal.
  rewrite take_ge by (by rewrite length_reverse, length_fmap).
  rewrite <- fmap_reverse, <- list_fmap_compose.
  apply foldr_add_permutation.
  rewrite reverse_Permutation.
  assert ((txr_delta ∘ (λ c : Z * string, mkTxRow c.1 c.2)) <$> changes =
          changes.*1) as -> by (by apply list_fmap_ext).
  done.
Qed.

Lemma main_dashboard_after_changes_witness :
  ∃ s' profile hs,
    apply_changes env_no_rpc None "u1" [(10, "quiz bonus"); (-3, "late")]
      store_fresh = (Ok tt, s') ∧
    Main.student_dashboard env_no_rpc "u1" s' =
      (Ok (profile, hs, [mkTxRow (-3) "late"; mkTxRow 10 "quiz bonus"]), s') ∧
    pr_total_points profile = 7.
Proof.
  destruct (main_dashboard_after_changes env_no_rpc None "u1"
              [(10, "quiz bonus"); (-3, "late")] store_fresh
              (with_total harry 0))
    as (s' & profile & hs & txs & Hrun & Hdash & Htotal & Htxs & _);
    [reflexivity..|].
  exists s', profile, hs. split; [exact Hrun|]. rewrite Htxs in Hdash.
  by split.
Defined.

(** ** Admin views *)

Lemma merge_orders_sound : orders_sound merge_orders.
Proof.
  split.
  - intros A key l. simpl. split; [apply merge_sort_Permutation|].
    set (R := λ x y : A, key y ≤ key x).
    assert (Transitive R) by (intros x y z; unfold R; lia).
    assert (Total R) by (intros x y; unfold R; lia).
    apply (StronglySorted_merge_sort R).
  - intros A key l. simpl. apply merge_sort_Permutation.
Qed.

Lemma main_admin_overview_run (o : Orders) (env : Env)
    (key : option string) (s : Store) :
  Main.admin_overview o env key s =
  if admin_key_accepted env key then
    if supabase_configured env then
      (Ok (by_total_desc o _ snd (map_to_list (houses s)),
           uncurry top_row <$>
             take 10 (by_total_desc o _ (λ row, total_points row.2)
                        (map_to_list (students s)))), s)
    else (Raise (HTTPException 500), s)
  else (Raise (HTTPException 401), s).
Proof.
  unfold Main.admin_overview.
  unfold mbind at 1, M_bind at 1. rewrite admin_guard_run.
  destruct (admin_key_accepted env key); [|done].
  unfold Main.require_supabase.
  destruct (supabase_configured env); run_m; [|done].
  unfold_read_calls. by rewrite fmap_take.
Qed.

Lemma backend_admin_overview_run (o : Orders) (env : Env) (s : Store) :
  Backend.admin_overview o env s =
  if supabase_configured env then
    (Ok (map_to_list (houses s),
         uncurry top_row <$>
           take 10 (by_total_desc o _ (λ row, total_points row.2)
                      (map_to_list (students s)))), s)
  else (Raise (HTTPException 500), s).
Proof.
  unfold Backend.admin_overview, Backend.ensure_client, Backend.except_400.
  destruct (supabase_configured env); run_m; [|done].
  unfold_read_calls. by rewrite fmap_take.
Qed.

(** The first [n] rows of a list in descending order of a key are the [n]
    best: none of the rows left out has a greater key than one kept. *)
Lemma take_sorted_desc_best {A} (key : A → Z) (n : nat) (l : list A) (x y : A) :
  StronglySorted (λ a b, key b ≤ key a) l →
  x ∈ take n l → y ∈ l → y ∉ take n l → key y ≤ key x.
Proof.
  intros Hs Hx Hy Hny. rewrite <- (take_drop n l) in Hs, Hy.
  apply elem_of_app in Hy as [Hy|Hy]; [done|].
  by apply (StronglySorted_app_1_elem_of _ _ _ x y Hs).
Qed.

(** X19: the admin overview of [src/main.py] is a ranking that reads and
    never writes: the houses are all the house rows in descending order of
    total; the students shown are at most ten stored students in descending
    order of total, ten whenever there are that many, and no student left
    out has more points than one shown. *)
Theorem main_admin_overview_ranks
    (o : Orders) (env : Env) (key : option string) (s : Store) :
  orders_sound o →
  admin_key_accepted env key = true →
  supabase_configured env = true →
  ∃ hs top,
    Main.admin_overview o env key s = (Ok (hs, top), s) ∧
    hs ≡ₚ map_to_list (houses s) ∧
    StronglySorted (λ x y, y.2 ≤ x.2) hs ∧
    length top = (10 `min` size (students s))%nat ∧
    StronglySorted (λ x y, tr_total_points y ≤ tr_total_points x) top ∧
    (∀ row, row ∈ top →
       ∃ id st, students s !! id = Some st ∧ row = top_row id st) ∧
    (∀ id st row, students s !! id = Some st → row ∈ top →
       top_row id st ∉ top → total_points st ≤ tr_total_points row).
Proof.
  intros [Htot _] Hk Hc.
  rewrite main_admin_overview_run, Hk, Hc.
  destruct (Htot _ snd (map_to_list (houses s))) as [Hhp Hhs].
  destruct (Htot _ (λ row : string * Student, total_points row.2)
              (map_to_list (students s))) as [Hp Hs].
  set (L := by_total_desc o _ _ (map_to_list (students s))) in *.
  eexists _, _. split; [reflexivity|]. split; [done|]. split; [done|].
  split; [|split; [|split]].
  - by rewrite length_fmap, length_take, Hp, length_map_to_list.
  - apply (StronglySorted_fmap _
             (λ a b : string * Student, total_points b.2 ≤ total_points a.2)).
    + by intros [??] [??].
    + rewrite <- (take_drop 10 L) in Hs.
      by apply StronglySorted_app_1_l in Hs.
  - intros row Hrow. apply list_elem_of_fmap in Hrow as ([id st] & -> & Hin).
    exists id, st. split; [|done].
    apply elem_of_map_to_list. rewrite <- Hp.
    apply elem_of_take in Hin as (i & Hi & _).
    apply list_elem_of_lookup. eauto.
  - intros id st row Hst Hrow Hout.
    apply list_elem_of_fmap in Hrow as ([id' st'] & -> & Hin). simpl.
    apply (take_sorted_desc_best (λ r : string * Student, total_points r.2)
             10 L (id', st') (id, st) Hs Hin).
    + rewrite Hp. by apply elem_of_map_to_list.
    + intros Hin'. apply Hout. apply list_elem_of_fmap. by exists (id, st).
Qed.

Lemma main_admin_overview_ranks_witness :
  ∃ hs top,
    Main.admin_overview merge_orders env_all_rpc None store0 =
      (Ok (hs, top), store0) ∧
    length top = 1%nat.
Proof.
  destruct (main_admin_overview_ranks merge_orders env_all_rpc None store0
              merge_orders_sound)
    as (hs & top & Hrun & _ & _ & Hlen & _); [reflexivity..|].
  exists hs, top. split; [exact Hrun|]. rewrite Hlen. reflexivity.
Defined.

Lemma students_by_house_rows (o : Orders) (house : option string) (s : Store)
    (row : ProfileRow) :
  orders_sound o →
  row ∈ (uncurry profile_row <$>
           by_name o _ (λ r : string * Student, name r.2)
             (if truthy house
              then filter (λ r, assigned_house r.2 = house)
                          (map_to_list (students s))
              else map_to_list (students s))) ↔
  ∃ id st, students s !! id = Some st ∧ row = profile_row id st ∧
           (truthy house = true → assigned_house st = house).
Proof.
  intros [_ Hname]. rewrite list_elem_of_fmap. setoid_rewrite Hname.
  split.
  - intros ([id st] & -> & Hin). exists id, st.
    destruct (truthy house).
    + apply list_elem_of_filter in Hin as [Hh Hin].
      apply elem_of_map_to_list in Hin. by repeat split.
    + apply elem_of_map_to_list in Hin. by repeat split.
  - intros (id & st & Hst & -> & Hh). exists (id, st). split; [done|].
    apply elem_of_map_to_list in Hst.
    destruct (truthy house); [|done].
    apply list_elem_of_filter. split; [by apply Hh | done].
Qed.

(** X20: [GET /admin/students] lists, without writing, exactly the stored
    students whose [assigned_house] equals the [house] asked for; with no
    [house], or with the empty string, it lists every student.  The same
    holds for [src/backend/main.py], which asks for no key. *)
Theorem admin_students_lists_the_house
    (o : Orders) (env : Env) (house key : option string) (s : Store) :
  orders_sound o →
  admin_key_accepted env key = true →
  supabase_configured env = true →
  ∃ rows,
    Main.admin_students o env house key s = (Ok rows, s) ∧
    Backend.admin_students o env house s = (Ok rows, s) ∧
    (∀ row, row ∈ rows ↔
       ∃ id st, students s !! id = Some st ∧ row = profile_row id st ∧
                (truthy house = true → assigned_house st = house)) ∧
    (house = None ∨ house = Some "" →
     length rows = size (students s)).
Proof.
  intros Ho Hk Hc. eexists. split; [|split; [|split]].
  - unfold Main.admin_students.
    unfold mbind at 1, M_bind at 1. rewrite admin_guard_run, Hk.
    unfold Main.require_supabase. rewrite Hc. run_m. unfold_read_calls.
    reflexivity.
  - unfold Backend.admin_students, Backend.ensure_client, Backend.except_400.
    rewrite Hc. run_m. unfold_read_calls. reflexivity.
  - intros row. by apply students_by_house_rows.
  - intros Hnone. assert (truthy house = false) as ->.
    { by destruct Hnone as [-> | ->]. }
    destruct Ho as [_ Hname].
    by rewrite length_fmap, Hname, length_map_to_list.
Qed.

Lemma admin_students_lists_the_house_witness :
  ∃ rows,
    Main.admin_students merge_orders env_all_rpc (Some "Gryffindor") None
      store0 = (Ok rows, store0) ∧
    profile_row "u1" harry ∈ rows.
Proof.
  destruct (admin_students_lists_the_house merge_orders env_all_rpc
              (Some "Gryffindor") None store0 merge_orders_sound)
    as (rows & Hrun & _ & Hrows & _); [reflexivity..|].
  exists rows. split; [exact Hrun|]. apply Hrows.
  exists "u1", harry. by repeat split.
Defined.

(** ** The admin key and the client check *)

Lemma admin_key_refused (env : Env) (key : option string) (k : string) :
  ADMIN_API_KEY env = Some k → k ≠ "" → key ≠ Some k →
  admin_key_accepted env key = false.
Proof.
  intros Hk Hne Hkey. unfold admin_key_accepted, truthy. rewrite Hk.
  destruct (decide (k = "")); [done|]. simpl. by case_bool_decide.
Qed.

Lemma admin_key_open (env : Env) (key : option string) :
  truthy (ADMIN_API_KEY env) = false → admin_key_accepted env key = true.
Proof. intros Hk. unfold admin_key_accepted. by rewrite Hk. Qed.

Lemma main_admin_students_run (o : Orders) (env : Env)
    (house key : option string) (s : Store) :
  Main.admin_students o env house key s =
  if admin_key_accepted env key then
    if supabase_configured env then students_select_by_house o house s
    else (Raise (HTTPException 500), s)
  else (Raise (HTTPException 401), s).
Proof.
  unfold Main.admin_students.
  unfold mbind at 1, M_bind at 1. rewrite admin_guard_run.
  destruct (admin_key_accepted env key); [|done].
  unfold Main.require_supabase.
  destruct (supabase_configured env); by run_m.
Qed.

(** The four house rows after the bulk upsert of [ensure_houses_seeded]. *)
Lemma seeded_lookup (t : gmap string Z) (k : string) :
  fold_left (λ t h, <[h := 0]> t) HOUSES t !! k =
  if decide (k ∈ HOUSES) then Some 0 else t !! k.
Proof.
  simpl. case_decide as Hk; unfold HOUSES in Hk.
  - rewrite !elem_of_cons, elem_of_nil in Hk.
    destruct Hk as [->|[->|[->|[->|[]]]]]; by simplify_map_eq.
  - rewrite !not_elem_of_cons in Hk. destruct Hk as (?&?&?&?&_).
    by rewrite !lookup_insert_ne.
Qed.

Lemma main_admin_bootstrap_run (env : Env) (auth : Auth)
    (key : option string) (s : Store) :
  Main.admin_bootstrap env auth key s =
  if admin_key_accepted env key then
    if supabase_configured env then
      let s1 := set_houses (λ t, fold_left (λ t h, <[h := 0]> t) HOUSES t) s in
      match Main.bootstrap_admin_user auth ≫= user_id_of with
      | Ok admin_id =>
          students_upsert_core admin_id "Admin" Main.admin_email 0 None s1
      | Raise e => (Raise e, s1)
      end
    else (Raise (HTTPException 500), s)
  else (Raise (HTTPException 401), s).
Proof.
  unfold Main.admin_bootstrap.
  unfold mbind at 1, M_bind at 1. rewrite admin_guard_run.
  destruct (admin_key_accepted env key); [|done].
  unfold Main.ensure_houses_seeded, Main.require_supabase.
  destruct (supabase_configured env); run_m; [|done].
  destruct (Main.bootstrap_admin_user auth) as [[id|]|e]; by simpl.
Qed.

(** X21: with [ADMIN_API_KEY] set to a non-empty key, a request whose
    [X-Admin-Key] header is missing or different is answered 401 by each of
    the four admin routes of [src/main.py] before the client is checked or
    the store is touched. *)
Theorem main_admin_routes_refuse_wrong_key
    (o : Orders) (env : Env) (auth : Auth) (payload : PointsRequest)
    (house key : option string) (k : string) (s : Store) :
  ADMIN_API_KEY env = Some k → k ≠ "" → key ≠ Some k →
  Main.admin_points env payload key s = (Raise (HTTPException 401), s) ∧
  Main.admin_overview o env key s = (Raise (HTTPException 401), s) ∧
  Main.admin_students o env house key s = (Raise (HTTPException 401), s) ∧
  Main.admin_bootstrap env auth key s = (Raise (HTTPException 401), s).
Proof.
  intros Hk Hne Hkey.
  pose proof (admin_key_refused env key k Hk Hne Hkey) as Hno.
  rewrite main_admin_points_refused by done.
  by rewrite main_admin_overview_run, main_admin_students_run,
    main_admin_bootstrap_run, Hno.
Qed.

Lemma main_admin_routes_refuse_wrong_key_witness :
  Main.admin_points (mkEnv false (Some "k3y") false false true)
    (mkPointsRequest "u1" 5 "quiz bonus") None store0 =
  (Raise (HTTPException 401), store0).
Proof.
  apply (main_admin_routes_refuse_wrong_key merge_orders
           (mkEnv false (Some "k3y") false false true) auth_existing
           (mkPointsRequest "u1" 5 "quiz bonus") None None "k3y" store0);
    done.
Defined.

(** X22: with [ADMIN_API_KEY] unset or empty the admin routes of
    [src/main.py] are open: whatever header a request carries, each route
    does exactly what it does for a request without the header. *)
Theorem main_admin_routes_open_without_key
    (o : Orders) (env : Env) (auth : Auth) (payload : PointsRequest)
    (house key : option string) (s : Store) :
  ADMIN_API_KEY env = None ∨ ADMIN_API_KEY env = Some "" →
  Main.admin_guard env key s = (Ok tt, s) ∧
  Main.admin_points env payload key s = Main.admin_points env payload None s ∧
  Main.admin_overview o env key s = Main.admin_overview o env None s ∧
  Main.admin_students o env house key s =
    Main.admin_students o env house None s ∧
  Main.admin_bootstrap env auth key s = Main.admin_bootstrap env auth None s.
Proof.
  intros Hk.
  assert (Hopen : ∀ x, admin_key_accepted env x = true).
  { intros x. apply admin_key_open. by destruct Hk as [-> | ->]. }
  rewrite admin_guard_run, !main_admin_overview_run, !main_admin_students_run,
    !main_admin_bootstrap_run, !Hopen.
  repeat split; try done.
  unfold Main.admin_points, mbind, M_bind.
  by rewrite !admin_guard_run, !Hopen.
Qed.

Lemma main_admin_routes_open_without_key_witness :
  Main.admin_points (mkEnv true (Some "") false false true)
    (mkPointsRequest "u1" 5 "quiz bonus") (Some "anything") store0 =
  Main.admin_points (mkEnv true (Some "") false false true)
    (mkPointsRequest "u1" 5 "quiz bonus") None store0.
Proof.
  apply (main_admin_routes_open_without_key merge_orders
           (mkEnv true (Some "") false false true) auth_existing
           (mkPointsRequest "u1" 5 "quiz bonus") None (Some "anything") store0).
  by right.
Defined.

Lemma backend_admin_students_run (o : Orders) (env : Env)
    (house : option string) (s : Store) :
  Backend.admin_students o env house s =
  if supabase_configured env then students_select_by_house o house s
  else (Raise (HTTPException 500), s).
Proof.
  unfold Backend.admin_students, Backend.ensure_client, Backend.except_400.
  destruct (supabase_configured env); by run_m.
Qed.

Lemma backend_signup_unconfigured (env : Env) (auth : Auth)
    (payload : SignupRequest) (s : Store) :
  supabase_configured env = false →
  Backend.signup env auth payload s = (Raise (HTTPException 500), s).
Proof.
  intros Hc. unfold Backend.signup, Backend.ensure_client.
  rewrite Hc. by run_m.
Qed.

(** X23: without a Supabase client none of the routes that work on the
    database gets to it.  The seven of [src/main.py] (signup, quiz
    submission, student dashboard, and the admin points, overview, students
    and bootstrap routes) and the six of [src/backend/main.py] embedded here
    (signup, quiz submission, student dashboard, admin points, overview and
    students) answer 500 and leave the store as it is, except that an admin
    route of [src/main.py] answers 401 first when the key is not accepted.
    The status routes, which answer without a client, and the bootstrap of
    [src/backend/main.py] are not part of this statement. *)
Theorem unconfigured_client_answers_500
    (o : Orders) (lower : string → string) (env : Env) (auth : Auth)
    (signup_payload : SignupRequest) (points : PointsRequest)
    (user_id : string) (text : list string) (numeric : list QuizAnswer)
    (house key : option string) (s : Store) :
  supabase_configured env = false →
  Main.signup env auth signup_payload s = refused 500 s ∧
  Main.submit_quiz lower env user_id text s = refused 500 s ∧
  Main.student_dashboard env user_id s = refused 500 s ∧
  Main.admin_points env points key s =
    refused (if admin_key_accepted env key then 500 else 401) s ∧
  Main.admin_overview o env key s =
    refused (if admin_key_accepted env key then 500 else 401) s ∧
  Main.admin_students o env house key s =
    refused (if admin_key_accepted env key then 500 else 401) s ∧
  Main.admin_bootstrap env auth key s =
    refused (if admin_key_accepted env key then 500 else 401) s ∧
  Backend.signup env auth signup_payload s = refused 500 s ∧
  Backend.quiz_submit env user_id numeric s = refused 500 s ∧
  Backend.student_dashboard env user_id s = refused 500 s ∧
  Backend.admin_points env points s = refused 500 s ∧
  Backend.admin_overview o env s = refused 500 s ∧
  Backend.admin_students o env house s = refused 500 s.
Proof.
  intros Hc. unfold refused.
  rewrite main_signup_unconfigured, main_submit_quiz_unconfigured,
    backend_signup_unconfigured, backend_quiz_submit_unconfigured,
    backend_admin_points_unconfigured by done.
  rewrite main_student_dashboard_run, main_admin_overview_run,
    main_admin_students_run, main_admin_bootstrap_run,
    backend_student_dashboard_run, backend_admin_overview_run,
    backend_admin_students_run, Hc.
  destruct (admin_key_accepted env key) eqn:Hk.
  - rewrite main_admin_points_unconfigured by done. by repeat split.
  - rewrite main_admin_points_refused by done. by repeat split.
Qed.

Lemma unconfigured_client_answers_500_witness :
  Backend.admin_points (mkEnv false None true true true)
    (mkPointsRequest "u1" 5 "quiz bonus") store0 =
  (Raise (HTTPException 500), store0).
Proof.
  apply (unconfigured_client_answers_500 merge_orders ascii_lower
           (mkEnv false None true true true) auth_existing harry_again
           (mkPointsRequest "u1" 5 "quiz bonus") "u1" [] [] None None store0).
  reflexivity.
Defined.

(** X24: the three [GET] routes of each program only read: whatever they
    answer, a result or an error, the store after the request is the store
    before it. *)
Theorem get_routes_never_write
    (o : Orders) (env : Env) (user_id : string) (house key : option string)
    (s : Store) :
  (Main.student_dashboard env user_id s).2 = s ∧
  (Main.admin_overview o env key s).2 = s ∧
  (Main.admin_students o env house key s).2 = s ∧
  (Backend.student_dashboard env user_id s).2 = s ∧
  (Backend.admin_overview o env s).2 = s ∧
  (Backend.admin_students o env house s).2 = s.
Proof.
  rewrite main_student_dashboard_run, main_admin_overview_run,
    main_admin_students_run, backend_student_dashboard_run,
    backend_admin_overview_run, backend_admin_students_run.
  destruct (supabase_configured env), (admin_key_accepted env key),
    (students s !! user_id); by repeat split.
Qed.

(** ** Bootstrap *)

Lemma seed_houses_idem (t : gmap string Z) :
  seed_houses (seed_houses t) = seed_houses t.
Proof.
  apply map_eq; intros h. unfold seed_houses.
  rewrite !seeded_lookup. by case_decide.
Qed.

Lemma main_admin_bootstrap_ok (env : Env) (auth : Auth)
    (key : option string) (s : Store) (admin_id : string) :
  admin_key_accepted env key = true →
  supabase_configured env = true →
  Main.bootstrap_admin_user auth = Ok (Some admin_id) →
  Main.admin_bootstrap env auth key s =
  (Ok tt,
   mkStore (<[admin_id := admin_row (students s !! admin_id)]> (students s))
           (seed_houses (houses s)) (point_transactions s) (quiz_answers s)).
Proof.
  intros Hk Hc Hid. by rewrite main_admin_bootstrap_run, Hk, Hc, Hid.
Qed.

(** X25: a bootstrap that gets an admin user from the identity service,
    found by email or else created, puts the four house totals to 0,
    leaves every other house row, and stores the admin profile under the
    user's id with name "Admin", no house and total 0, keeping the contact
    columns of a row that was there; no other student, transaction or
    answer record changes, and a second bootstrap changes nothing more. *)
Theorem main_admin_bootstrap_effect
    (env : Env) (auth : Auth) (key : option string) (s : Store)
    (admin_id : string) :
  admin_key_accepted env key = true →
  supabase_configured env = true →
  Main.bootstrap_admin_user auth = Ok (Some admin_id) →
  ∃ s' row,
    Main.admin_bootstrap env auth key s = (Ok tt, s') ∧
    (∀ h, houses s' !! h = if decide (h ∈ HOUSES) then Some 0
                           else houses s !! h) ∧
    students s' !! admin_id = Some row ∧
    name row = "Admin" ∧ email row = Main.admin_email ∧
    assigned_house row = None ∧ total_points row = 0 ∧
    phone row = (students s !! admin_id) ≫= phone ∧
    instagram row = (students s !! admin_id) ≫= instagram ∧
    linkedin row = (students s !! admin_id) ≫= linkedin ∧
    (∀ id, id ≠ admin_id → students s' !! id = students s !! id) ∧
    point_transactions s' = point_transactions s ∧
    quiz_answers s' = quiz_answers s ∧
    Main.admin_bootstrap env auth key s' = (Ok tt, s').
Proof.
  intros Hk Hc Hid.
  rewrite (main_admin_bootstrap_ok env auth key s admin_id) by done.
  eexists _, _. split; [reflexivity|]. simpl.
  split; [intros h; apply (seeded_lookup (houses s) h)|].
  split; [apply lookup_insert_eq|].
  do 7 (split; [by destruct (students s !! admin_id)|]).
  split; [intros id Hne; by apply lookup_insert_ne|].
  split; [done|]. split; [done|].
  rewrite (main_admin_bootstrap_ok env auth key _ admin_id) by done. simpl.
  rewrite lookup_insert_eq, insert_insert_eq.
  change (fold_left _ HOUSES (fold_left _ HOUSES (houses s)))
    with (seed_houses (seed_houses (houses s))).
  rewrite seed_houses_idem. do 3 f_equal.
  by destruct (students s !! admin_id).
Qed.

Lemma main_admin_bootstrap_effect_witness :
  ∃ s' row,
    Main.admin_bootstrap env_all_rpc auth_existing None store0 = (Ok tt, s') ∧
    students s' !! "u1" = Some row ∧
    name row = "Admin" ∧ total_points row = 0 ∧
    houses s' !! "Gryffindor" = Some 0.
Proof.
  destruct (main_admin_bootstrap_effect env_all_rpc auth_existing None store0
              "u1")
    as (s' & row & Hrun & Hh & Hrow & Hname & _ & _ & Htotal & _);
    [reflexivity..|].
  exists s', row. split; [exact Hrun|]. split; [exact Hrow|].
  split; [exact Hname|]. split; [exact Htotal|]. by rewrite Hh.
Defined.

(** X26: a bootstrap that gets no admin user fails after it has written:
    the houses are seeded before the identity service is asked, so when the
    lookup finds no user and [create_user] raises or returns none, the
    request ends in that exception with the four house totals already put
    to 0 and the students as they were. *)
Theorem main_admin_bootstrap_fails_after_seeding
    (env : Env) (auth : Auth) (key : option string) (s : Store) (e : exn) :
  admin_key_accepted env key = true →
  supabase_configured env = true →
  Main.bootstrap_admin_user auth ≫= user_id_of = Raise e →
  ∃ s',
    Main.admin_bootstrap env auth key s = (Raise e, s') ∧
    (∀ h, h ∈ HOUSES → houses s' !! h = Some 0) ∧
    students s' = students s.
Proof.
  intros Hk Hc Hid.
  rewrite main_admin_bootstrap_run, Hk, Hc, Hid. simpl.
  eexists. split; [reflexivity|]. simpl. split; [|done].
  intros h Hh. pose proof (seeded_lookup (houses s) h) as Hl.
  simpl in Hl. rewrite Hl. by case_decide.
Qed.

Lemma main_admin_bootstrap_fails_after_seeding_witness :
  ∃ s',
    Main.admin_bootstrap env_all_rpc
      (mkAuth (λ _ _, Ok None) (λ _, Raise APIError) (λ _ _, Raise APIError))
      None store0 = (Raise APIError, s') ∧
    houses s' !! "Gryffindor" = Some 0 ∧
    houses store0 !! "Gryffindor" = Some 50.
Proof.
  destruct (main_admin_bootstrap_fails_after_seeding env_all_rpc
              (mkAuth (λ _ _, Ok None) (λ _, Raise APIError)
                      (λ _ _, Raise APIError)) None store0 APIError)
    as (s' & Hrun & Hh & _); [reflexivity..|].
  exists s'. split; [exact Hrun|]. split; [|reflexivity].
  apply Hh. unfold HOUSES. set_solver.
Defined.

(** ** Only the four houses *)

(** A store whose houses, assigned or stored, are in [HOUSES] or were
    already in a closed store is closed. *)
Lemma registry_closed_from (s s' : Store) :
  registry_closed s →
  (∀ id st h, students s' !! id = Some st → assigned_house st = Some h →
     h ∈ HOUSES ∨
     ∃ id0 st0, students s !! id0 = Some st0 ∧ assigned_house st0 = Some h) →
  (∀ n, is_Some (houses s' !! n) → n ∈ HOUSES ∨ is_Some (houses s !! n)) →
  registry_closed s'.
Proof.
  intros [Hst Hho] Hst' Hho'. split.
  - intros id st h Hrow Hh.
    destruct (Hst' id st h Hrow Hh) as [|(id0 & st0 & H0 & Hh0)]; eauto.
  - intros n Hn. destruct (Hho' n Hn); eauto.
Qed.

Lemma is_Some_insert_cases (t : gmap string Z) (k n : string) (v : Z) :
  is_Some (<[k := v]> t !! n) → n = k ∨ is_Some (t !! n).
Proof.
  rewrite lookup_insert. case_decide; [by left; subst | by right].
Qed.

Lemma is_Some_sql_ensure (t : gmap string Z) (k n : string) :
  is_Some (sql_ensure_house_exists k t !! n) → n = k ∨ is_Some (t !! n).
Proof.
  unfold sql_ensure_house_exists. destruct (t !! k); [by right|].
  apply is_Some_insert_cases.
Qed.

Lemma registry_closed_main_admin_points
    (env : Env) (payload : PointsRequest) (key : option string) (s : Store) :
  registry_closed s →
  registry_closed (Main.admin_points env payload key s).2.
Proof.
  intros Hcl.
  destruct (admin_key_accepted env key) eqn:Hk;
    [|by rewrite main_admin_points_refused].
  destruct (supabase_configured env) eqn:Hc;
    [|by rewrite main_admin_points_unconfigured].
  destruct (students s !! student_id payload) as [st|] eqn:Hst;
    [|by rewrite main_admin_points_not_found].
  destruct (main_admin_points_run env payload key s st Hk Hc Hst)
    as (s' & -> & Hstu & _ & _ & Hhouses). simpl.
  apply (registry_closed_from s); [done|..].
  - intros id row h Hrow Hh. right. rewrite Hstu in Hrow.
    rewrite lookup_insert in Hrow. case_decide.
    + injection Hrow as <-. by exists (student_id payload), st.
    + by exists id, row.
  - intros n Hn. rewrite Hhouses in Hn.
    destruct (assigned_house st) as [k|] eqn:Hk'; [|by right].
    destruct (decide (k = "")); [by right|].
    assert (k ∈ HOUSES) by (destruct Hcl as [Hs _]; by eapply Hs).
    destruct (_ || _).
    + apply is_Some_insert_cases in Hn as [->|]; [by left | by right].
    + apply is_Some_insert_cases in Hn as [->|]; [by left | by right].
Qed.

Lemma registry_closed_main_signup
    (env : Env) (auth : Auth) (payload : SignupRequest) (s : Store) :
  registry_closed s →
  registry_closed (Main.signup env auth payload s).2.
Proof.
  intros Hcl.
  destruct (supabase_configured env) eqn:Hc;
    [|by rewrite main_signup_unconfigured].
  destruct (main_signup_user_id_cases auth payload) as [[id Hid]|Hid];
    [|by rewrite main_signup_refused].
  destruct (main_signup_run env auth payload s id Hc Hid)
    as (s' & -> & Hstu & _ & _ & Hin & Hout). simpl.
  apply (registry_closed_from s); [done|..].
  - intros id' row h Hrow Hh. right. rewrite Hstu in Hrow.
    rewrite lookup_insert in Hrow. case_decide.
    + injection Hrow as <-. done.
    + by exists id', row.
  - intros n Hn. destruct (decide (n ∈ HOUSES)); [by left|].
    right. by rewrite <- Hout.
Qed.

Lemma registry_closed_main_submit_quiz
    (lower : string → string) (env : Env) (user_id : string)
    (answers : list string) (s : Store) :
  registry_closed s →
  registry_closed (Main.submit_quiz lower env user_id answers s).2.
Proof.
  intros Hcl.
  destruct (supabase_configured env) eqn:Hc;
    [|by rewrite main_submit_quiz_unconfigured].
  destruct (main_submit_quiz_full lower env user_id answers s Hc)
    as (house & _ & Hin & ->). simpl.
  apply (registry_closed_from s); [done|..]; simpl.
  - intros id row h Hrow Hh. rewrite lookup_alter in Hrow. case_decide.
    + destruct (students s !! user_id); [|done].
      injection Hrow as <-. simpl in Hh. injection Hh as <-. by left.
    + right. by exists id, row.
  - intros n Hn. destruct (rpc_ensure_house_exists env).
    + apply is_Some_sql_ensure in Hn as [->|]; [by left | by right].
    + apply is_Some_insert_cases in Hn as [->|]; [by left | by right].
Qed.

Lemma registry_closed_main_admin_bootstrap
    (env : Env) (auth : Auth) (key : option string) (s : Store) :
  registry_closed s →
  registry_closed (Main.admin_bootstrap env auth key s).2.
Proof.
  intros Hcl. rewrite main_admin_bootstrap_run.
  destruct (admin_key_accepted env key); [|done].
  destruct (supabase_configured env); [|done].
  assert (Hho : ∀ n, is_Some (seed_houses (houses s) !! n) →
            n ∈ HOUSES ∨ is_Some (houses s !! n)).
  { intros n Hn. unfold seed_houses in Hn. rewrite seeded_lookup in Hn.
    case_decide; [by left | by right]. }
  cbv zeta. destruct (_ ≫= _) as [admin_id|e].
  - apply (registry_closed_from s); [done| |exact Hho].
    intros id row h Hrow Hh. right. simpl in Hrow.
    rewrite lookup_insert in Hrow. case_decide.
    + injection Hrow as <-. by destruct (students s !! admin_id).
    + by exists id, row.
  - apply (registry_closed_from s); [done| |exact Hho].
    intros id row h Hrow Hh. right. by exists id, row.
Qed.

(** X27: the writes of [src/main.py] never bring in a fifth house: if every
    assigned house and every row of [houses] carries one of the four names,
    the same is true after a signup, a quiz submission, a points change or
    a bootstrap, whatever the request and its answer. *)
Theorem main_writes_keep_four_houses
    (lower : string → string) (env : Env) (auth : Auth)
    (signup_payload : SignupRequest) (points : PointsRequest)
    (user_id : string) (answers : list string) (key : option string)
    (s : Store) :
  registry_closed s →
  registry_closed (Main.signup env auth signup_payload s).2 ∧
  registry_closed (Main.submit_quiz lower env user_id answers s).2 ∧
  registry_closed (Main.admin_points env points key s).2 ∧
  registry_closed (Main.admin_bootstrap env auth key s).2.
Proof.
  intros Hcl. split; [by apply registry_closed_main_signup|].
  split; [by apply registry_closed_main_submit_quiz|].
  split; [by apply registry_closed_main_admin_points|].
  by apply registry_closed_main_admin_bootstrap.
Qed.

Lemma registry_closed_store0 : registry_closed store0.
Proof.
  split.
  - intros id st h Hrow Hh. unfold store0 in Hrow. simpl in Hrow.
    apply lookup_singleton_Some in Hrow as [_ <-].
    injection Hh as <-. unfold HOUSES. set_solver.
  - intros n [v Hn]. unfold store0 in Hn. simpl in Hn.
    apply lookup_singleton_Some in Hn as [<- _]. unfold HOUSES. set_solver.
Qed.

Lemma main_writes_keep_four_houses_witness :
  registry_closed
    (Main.submit_quiz ascii_lower env_no_rpc "u1" ["clever"] store0).2.
Proof.
  apply (main_writes_keep_four_houses ascii_lower env_no_rpc auth_existing
           harry_again (mkPointsRequest "u1" 5 "quiz bonus") "u1" ["clever"]
           None store0 registry_closed_store0).
Defined.

(** X28: the same holds for the writes of [src/backend/main.py]: its
    signup, its quiz submission and its points change keep every assigned
    house and every house row among the four names. *)
Theorem backend_writes_keep_four_houses
    (env : Env) (auth : Auth) (signup_payload : SignupRequest)
    (points : PointsRequest) (user_id : string) (answers : list QuizAnswer)
    (s : Store) :
  registry_closed s →
  registry_closed (Backend.signup env auth signup_payload s).2 ∧
  registry_closed (Backend.quiz_submit env user_id answers s).2 ∧
  registry_closed (Backend.admin_points env points s).2.
Proof.
  intros Hcl. split; [|split].
  - unfold Backend.signup, Backend.ensure_client, Backend.except_400.
    destruct (supabase_configured env); run_m; unfold_read_calls; [|done].
    destruct (sign_up auth _ _) as [[id|]|e]; simpl; try done.
    destruct (students s !! id) as [row|] eqn:Hrow; simpl; [done|].
    apply (registry_closed_from s); [done|..]; simpl; [|by right].
    intros id' row h Hr Hh. right. rewrite lookup_insert in Hr. case_decide.
    + injection Hr as <-. done.
    + by exists id', row.
  - destruct (supabase_configured env) eqn:Hc;
      [|by rewrite backend_quiz_submit_unconfigured].
    destruct (backend_quiz_submit_full env user_id answers s Hc)
      as (house & _ & Hin & ->). simpl.
    apply (registry_closed_from s); [done|..]; simpl.
    + intros id row h Hrow Hh. rewrite lookup_alter in Hrow. case_decide.
      * destruct (students s !! user_id); [|done].
        injection Hrow as <-. simpl in Hh. injection Hh as <-. by left.
      * right. by exists id, row.
    + intros n Hn. destruct (rpc_ensure_house_exists env); [|by right].
      apply is_Some_sql_ensure in Hn as [->|]; [by left | by right].
  - destruct (supabase_configured env) eqn:Hc;
      [|by rewrite backend_admin_points_unconfigured].
    destruct (students s !! student_id points) as [st|] eqn:Hst;
      [|by rewrite backend_admin_points_not_found].
    destruct (backend_admin_points_run env points s st Hc Hst)
      as (s' & -> & Hstu & _ & Hhouses). simpl.
    apply (registry_closed_from s); [done|..].
    + intros id row h Hrow Hh. right. rewrite Hstu in Hrow.
      rewrite lookup_insert in Hrow. case_decide.
      * injection Hrow as <-. by exists (student_id points), st.
      * by exists id, row.
    + intros n Hn. rewrite Hhouses in Hn.
      destruct (assigned_house st) as [k|] eqn:Hk; [|by right].
      destruct (truthy (Some k)); simpl in Hn; [|by right].
      destruct (rpc_adjust_house_points env); simpl in Hn; [|by right].
      apply is_Some_insert_cases in Hn as [->|]; [left|by right].
      destruct Hcl as [Hs _]. by eapply Hs.
Qed.

Lemma backend_writes_keep_four_houses_witness :
  registry_closed
    (Backend.admin_points env_all_rpc (mkPointsRequest "u1" 5 "quiz bonus")
       store0).2.
Proof.
  apply (backend_writes_keep_four_houses env_all_rpc auth_existing harry_again
           (mkPointsRequest "u1" 5 "quiz bonus") "u1" [] store0
           registry_closed_store0).
Defined.

(** ** What a points change leaves alone *)

Lemma backend_admin_points_quiz_answers
    (env : Env) (change : PointsRequest) (s : Store) :
  quiz_answers (Backend.admin_points env change s).2 = quiz_answers s.
Proof.
  unfold Backend.admin_points, Backend.ensure_client, Backend.except_400.
  destruct (supabase_configured env); run_m; [|done].
  destruct (students s !! student_id change) as [st|]; simpl.
  - destruct (truthy (assigned_house st)); simpl; [|done].
    by destruct (rpc_adjust_house_points env).
  - by destruct (single_empty_raises env).
Qed.

(** X29: a points change, in either program and whatever it answers,
    reaches one student and one house: every other student's row, the
    student's own [assigned_house], every house row but the one of the
    student's house, and the answer records are as before. *)
Theorem admin_points_frame
    (env : Env) (payload : PointsRequest) (key : option string) (s : Store) :
  let touched (s' : Store) :=
    quiz_answers s' = quiz_answers s ∧
    (∀ id, id ≠ student_id payload → students s' !! id = students s !! id) ∧
    assigned_house <$> students s' !! student_id payload =
      assigned_house <$> students s !! student_id payload ∧
    (∀ k, students s !! student_id payload ≫= assigned_house ≠ Some k →
       houses s' !! k = houses s !! k) in
  touched (Main.admin_points env payload key s).2 ∧
  touched (Backend.admin_points env payload s).2.
Proof.
  intros touched. subst touched. cbv beta.
  destruct (supabase_configured env) eqn:Hc;
    [|rewrite backend_admin_points_unconfigured by done;
      destruct (admin_key_accepted env key) eqn:Hk;
      [rewrite main_admin_points_unconfigured by done
      |rewrite main_admin_points_refused by done]; by repeat split].
  destruct (students s !! student_id payload) as [st|] eqn:Hst;
    [|rewrite backend_admin_points_not_found by done;
      destruct (admin_key_accepted env key) eqn:Hk;
      [rewrite main_admin_points_not_found by done
      |rewrite main_admin_points_refused by done];
      simpl; rewrite ?Hst; by repeat split].
  split.
  - destruct (admin_key_accepted env key) eqn:Hk;
      [|rewrite main_admin_points_refused by done;
        simpl; rewrite ?Hst; by repeat split].
    destruct (main_admin_points_run env payload key s st Hk Hc Hst)
      as (s' & -> & Hstu & _ & Hqa & Hhouses). simpl.
    split; [done|]. rewrite Hstu.
    split; [intros id Hne; by apply lookup_insert_ne|].
    split; [by rewrite lookup_insert_eq|].
    intros k Hk'. simpl in Hk'. rewrite Hhouses.
    destruct (assigned_house st) as [n|]; [|done].
    destruct (decide (n = "")); [done|].
    destruct (_ || _); apply lookup_insert_ne; congruence.
  - destruct (backend_admin_points_run env payload s st Hc Hst)
      as (s' & Hrun & Hstu & _ & Hhouses).
    assert (Hqa : quiz_answers s' = quiz_answers s).
    { replace s' with (Backend.admin_points env payload s).2
        by (by rewrite Hrun).
      apply backend_admin_points_quiz_answers. }
    rewrite Hrun. simpl. split; [done|]. rewrite Hstu.
    split; [intros id Hne; by apply lookup_insert_ne|].
    split; [by rewrite lookup_insert_eq|].
    intros k Hk'. simpl in Hk'. rewrite Hhouses.
    destruct (assigned_house st) as [n|]; [|done].
    destruct (truthy (Some n)); simpl; [|done].
    destruct (rpc_adjust_house_points env); simpl; [|done].
    apply lookup_insert_ne. congruence.
Qed.
